(** * FileRAG: the query pipeline, the document registry and the query log

    A shallow embedding of [src/gemini_client.py], [src/document_manager.py]
    and [src/chat_handler.py], and the properties of the natural-language
    specification that concern them.

    Python strings are sequences of Unicode code points; the remote
    service and the local file system are collaborators whose behaviour is
    an interface ([Genai], [Host]) threaded through a small state and
    exception monad. *)

From Stdlib Require String.
From Stdlib Require Import List NArith ZArith Ascii Bool Arith Lia.
Import ListNotations.
Import String.StringSyntax.
Delimit Scope string_scope with string.

Set Implicit Arguments.

(** ** Python strings *)

Module Str.

(** A [str] is a sequence of code points; [len] is [length]. *)
Definition char := N.
Definition str := list char.

(** [len(s)] *)
Definition len (s : str) : nat := List.length s.

(** ASCII literals of the source. *)
Definition lit (s : String.string) : str :=
  map N_of_ascii (String.list_ascii_of_string s).

(** The double quote, which string literals of this file cannot hold. *)
Definition dq : str := [34%N].

Definition eqb (a b : str) : bool :=
  if list_eq_dec N.eq_dec a b then true else false.

(** [s.startswith(p)] *)
Fixpoint startswith (p s : str) : bool :=
  match p, s with
  | [], _ => true
  | _ :: _, [] => false
  | a :: p', b :: s' => (a =? b)%N && startswith p' s'
  end.

(** [sub in s] *)
Fixpoint contains (sub s : str) : bool :=
  startswith sub s ||
  match s with
  | [] => false
  | _ :: s' => contains sub s'
  end.

(** [s.count(sub)]: occurrences found scanning from the left, the scan
    resuming after each occurrence; [skip] is the number of characters
    of the last occurrence still to be stepped over. *)
Fixpoint count_from (sub s : str) (skip : nat) : nat :=
  match s with
  | [] => 0
  | _ :: s' =>
      match skip with
      | S k => count_from sub s' k
      | O => if startswith sub s
             then S (count_from sub s' (len sub - 1))
             else count_from sub s' 0
      end
  end.

Definition count (s sub : str) : nat :=
  match sub with
  | [] => S (len s)
  | _ :: _ => count_from sub s 0
  end.

(** [sep.join(parts)] *)
Fixpoint join (sep : str) (parts : list str) : str :=
  match parts with
  | [] => []
  | [p] => p
  | p :: rest => p ++ sep ++ join sep rest
  end.

(** [s * n] for an integer [n]: empty when [n <= 0]. *)
Definition mul (s : str) (n : Z) : str :=
  concat (repeat s (Z.to_nat n)).

(** [s[:n]] *)
Definition take (n : nat) (s : str) : str := firstn n s.

(** [str(n)] for a natural number. *)
Fixpoint digits_fuel (fuel : nat) (n : N) (acc : str) : str :=
  match fuel with
  | O => acc
  | S fuel' =>
      let acc' := (48 + n mod 10)%N :: acc in
      if (n <? 10)%N then acc' else digits_fuel fuel' (n / 10)%N acc'
  end.

Definition of_N (n : N) : str := digits_fuel (S (N.to_nat (N.log2 n))) n [].

(** [str(n)] for an integer. *)
Definition of_Z (z : Z) : str :=
  match z with
  | Zneg p => 45%N :: of_N (Npos p)
  | _ => of_N (Z.to_N z)
  end.

(** ASCII lower-casing of one code point. *)
Definition ascii_lower (c : char) : char :=
  if ((65 <=? c) && (c <=? 90))%N then (c + 32)%N else c.

End Str.
Import Str.

Declare Scope pystr_scope.
Delimit Scope pystr_scope with py.
Bind Scope pystr_scope with str.
Notation "` s" := (lit s%string) (at level 1, format "` s") : pystr_scope.
Open Scope pystr_scope.
Open Scope list_scope.

Definition nl : str := [10%N].

(** ** The remote service and the host platform *)

(** An exception is represented by its message, [str(e)]. *)
Definition exn := str.

(** A handle of the remote file service.  The SDK objects are duck typed:
    the source tests [hasattr] for every attribute but [name], so those
    are optional here.  [state] holds [file.state.name]. *)
Record File := {
  name : str;
  display_name : option str;
  state : option str;
  create_time : option str;
  update_time : option str;
  uri : option str
}.

(** The [google.generativeai] calls the source makes, over the state [R]
    of the remote service.  [generate_content] stands for
    [model.generate_content(parts)] followed by [response.text]. *)
Class Genai (R : Type) := {
  genai_upload_file : str -> option str -> option str -> R -> (exn + File) * R;
  genai_get_file : str -> R -> (exn + File) * R;
  genai_list_files : R -> (exn + list File) * R;
  generate_content : str -> list File -> R -> (exn + str) * R
}.

(** What the Python runtime and the operating system decide.
    [unicode_lower before c after] is the lower-case mapping of a
    non-ASCII code point in its context (the Unicode tables of
    [str.lower]); [isoformat_now n] is [datetime.now().isoformat()] at the
    [n]-th reading of the clock; [named_temporary_file] and [unlink] are
    the temporary file of [upload_document]; [attribute_error] is the
    message of the [AttributeError] for a handle without [state] and
    [file_not_found] that of opening a missing file for reading. *)
Class Host := {
  unicode_lower : str -> char -> str -> str;
  isoformat_now : nat -> str;
  named_temporary_file : str -> list Byte.byte -> exn + str;
  unlink : str -> option exn;
  attribute_error : File -> exn;
  file_not_found : exn
}.

(** Remote calls, recorded in the order they are made. *)
Inductive Call :=
| CallUploadFile (path : str) (display : option str) (mime : option str)
| CallGetFile (file_name : str)
| CallListFiles
| CallGenerate (prompt : str) (files : list File).

(** Lines printed on the console, one constructor per [print] of the
    source (the formatted traceback of [query_with_files] is left out). *)
Inductive Diag :=
| WarnDuplicateCheck (e : exn)
| WarnLogQuery (e : exn)
| ErrClearHistory (e : exn)
| ErrSaveRating (e : exn)
| DebugQuerying (n : nat) (names : list str)
| DebugResponse (prefix : str)
| ErrQueryWithFiles (e : exn).

Inductive Mode := ModeRead | ModeWrite | ModeAppend.

(** ** Effects *)

Inductive outcome (A : Type) :=
| Return (a : A)
| Raise (e : exn)
| Diverge.
Arguments Raise {A} e.
Arguments Diverge {A}.

Section Effects.

Context {R : Type}.

(** [log_file] is the content of the file at [log_path] ([None] when
    it does not exist); [log_fault m] is the error [open(log_path, m)]
    raises, if any.  A file that opens is written in full, and [print]
    does not fail. *)
Record World := {
  remote : R;
  calls : list Call;
  log_file : option str;
  log_fault : Mode -> option exn;
  console : list Diag;
  clock : nat
}.

Definition M (A : Type) := World -> outcome A * World.

Definition ret {A} (a : A) : M A := fun w => (Return a, w).

Definition bind {A B} (m : M A) (k : A -> M B) : M B :=
  fun w =>
    match m w with
    | (Return a, w') => k a w'
    | (Raise e, w') => (Raise e, w')
    | (Diverge, w') => (Diverge, w')
    end.

Definition raise {A} (e : exn) : M A := fun w => (Raise e, w).

Definition diverge {A} : M A := fun w => (Diverge, w).

(** [try: body  except Exception as e: handler(e)] *)
Definition catch {A} (body : M A) (handler : exn -> M A) : M A :=
  fun w =>
    match body w with
    | (Raise e, w') => handler e w'
    | r => r
    end.

(** [try: body  finally: cleanup] *)
Definition finally {A} (body : M A) (cleanup : M unit) : M A :=
  fun w =>
    match body w with
    | (Diverge, w') => (Diverge, w')
    | (r, w') =>
        match cleanup w' with
        | (Return _, w'') => (r, w'')
        | (Raise e, w'') => (Raise e, w'')
        | (Diverge, w'') => (Diverge, w'')
        end
    end.

(** The world after a remote call [c] that left the service in [r']. *)
Definition called (w : World) (r' : R) (c : list Call) : World :=
  {| remote := r'; calls := calls w ++ c; log_file := log_file w;
     log_fault := log_fault w; console := console w; clock := clock w |}.

Definition printed (w : World) (d : Diag) : World :=
  {| remote := remote w; calls := calls w; log_file := log_file w;
     log_fault := log_fault w; console := console w ++ [d];
     clock := clock w |}.

Definition ticked (w : World) : World :=
  {| remote := remote w; calls := calls w; log_file := log_file w;
     log_fault := log_fault w; console := console w;
     clock := S (clock w) |}.

Definition set_log (w : World) (content : option str) : World :=
  {| remote := remote w; calls := calls w; log_file := content;
     log_fault := log_fault w; console := console w; clock := clock w |}.

Definition print (d : Diag) : M unit :=
  fun w => (Return tt, printed w d).

(** A call of the remote service: recorded, then answered. *)
Definition remote_call {A} (c : Call) (op : R -> (exn + A) * R) : M A :=
  fun w =>
    let (r, remote') := op (remote w) in
    match r with
    | inr a => (Return a, called w remote' [c])
    | inl e => (Raise e, called w remote' [c])
    end.

(** [os.path.exists(log_path)] *)
Definition log_exists : M bool :=
  fun w => (Return (match log_file w with Some _ => true | None => false end), w).

(** [open(log_path, mode)]: ['w'] truncates, ['a'] and ['w'] create the
    file, ['r'] needs it. *)
Definition open_log `{Host} (mode : Mode) : M unit :=
  fun w =>
    match log_fault w mode with
    | Some e => (Raise e, w)
    | None =>
        match mode, log_file w with
        | ModeWrite, _ => (Return tt, set_log w (Some []))
        | ModeAppend, None => (Return tt, set_log w (Some []))
        | ModeRead, None => (Raise file_not_found, w)
        | _, Some _ => (Return tt, w)
        end
    end.

(** [f.write(text)] on the file opened for writing or appending. *)
Definition fwrite (text : str) : M unit :=
  fun w =>
    (Return tt,
     set_log w (Some (match log_file w with
                      | Some old => old ++ text
                      | None => text
                      end))).

(** [f.read()] *)
Definition fread : M str :=
  fun w => (Return (match log_file w with Some c => c | None => [] end), w).

(** [datetime.now().isoformat()] *)
Definition now `{Host} : M str :=
  fun w => (Return (isoformat_now (clock w)), ticked w).

End Effects.

Arguments World R : clear implicits.
Arguments M R A : clear implicits.

Notation "x <- c ;; k" := (bind c (fun x => k))
  (at level 61, c at next level, right associativity).
Notation "c ;; k" := (bind c (fun _ => k))
  (at level 61, right associativity).

(** ** [src/gemini_client.py] *)

Module Source.
(** An entry of [sources]: a dict with the keys the source reads. *)
Record t := {
  document : option str;
  file_name : option str;
  chunk : option str
}.
End Source.

Inductive DebugInfo :=
| DebugFiles (total_file_names active_files : nat) (failed_files : list str)
| DebugError (error : exn).

Module Result.
(** The dict [query_with_files] returns. *)
Record t := {
  answer : str;
  sources : list Source.t;
  found : bool;
  debug_info : DebugInfo
}.
End Result.

Definition not_found_phrases : list str :=
  [ `"i don't have this information";
    `"i don't have";
    `"not found in the";
    `"not available in the";
    `"cannot find this";
    `"no information about";
    `"don't see any information" ].

Definition refusal_sentence : str :=
  `"I don't have this information in the provided documents.".

(** The f-string [context_prompt]. *)
Definition context_prompt (query : str) : str :=
  `"You are a helpful assistant that answers questions based on provided documents."
  ++ nl ++ nl ++
  `"Read the following documents carefully and answer the user's question based ONLY on the information in these documents."
  ++ nl ++ nl ++
  `"If the answer is found in the documents, provide a detailed answer and cite which document(s) it came from."
  ++ nl ++
  `"If the answer is NOT found in the documents, respond with: "
  ++ dq ++ refusal_sentence ++ dq
  ++ nl ++ nl ++
  `"Question: " ++ query.

Section Client.

Context {R : Type} {G : Genai R} {H : Host}.

(** [s.lower()]: ASCII letters by the ASCII rule, every other code
    point by the tables of the runtime. *)
Fixpoint lower_from (before s : str) : str :=
  match s with
  | [] => []
  | c :: rest =>
      (if (c <? 128)%N then [ascii_lower c] else unicode_lower before c rest)
      ++ lower_from (before ++ [c]) rest
  end.

Definition lower (s : str) : str := lower_from [] s.

(** [file.state.name] where the source reads it without [hasattr]. *)
Definition state_name (file : File) : M R str :=
  match state file with
  | Some s => ret s
  | None => raise (attribute_error file)
  end.

(** The loop [while file.state.name == "PROCESSING"] of [upload_file];
    [fuel] bounds the number of polls. *)
Fixpoint wait_processed (fuel : nat) (file : File) : M R File :=
  s <- state_name file ;;
  if Str.eqb s `"PROCESSING" then
    match fuel with
    | O => diverge
    | S fuel' =>
        file' <- remote_call (CallGetFile (name file))
                             (genai_get_file (name file)) ;;
        wait_processed fuel' file'
    end
  else ret file.

Definition upload_file (fuel : nat) (file_path : str)
    (display_name mime_type : option str) : M R File :=
  catch
    (file <- remote_call (CallUploadFile file_path display_name mime_type)
                         (genai_upload_file file_path display_name mime_type) ;;
     file <- wait_processed fuel file ;;
     s <- state_name file ;;
     if Str.eqb s `"FAILED"
     then raise (`"File processing failed: " ++ name file)
     else ret file)
    (fun e => raise (`"Failed to upload file: " ++ e)).

Definition list_files : M R (list File) :=
  catch (remote_call CallListFiles genai_list_files)
        (fun e => raise (`"Failed to list files: " ++ e)).

(** The body of [for file_name in file_names], on the two lists it
    extends. *)
Definition check_file (file_name : str) (acc : list File * list str)
  : M R (list File * list str) :=
  let (files, failed_files) := acc in
  catch
    (file <- remote_call (CallGetFile file_name) (genai_get_file file_name) ;;
     match state file with
     | Some s =>
         if Str.eqb s `"ACTIVE" then ret (files ++ [file], failed_files)
         else ret (files,
                   failed_files ++ [file_name ++ `" (state: " ++ s ++ `")"])
     | None => ret (files ++ [file], failed_files)
     end)
    (fun e =>
       ret (files, failed_files ++ [file_name ++ `" (error: " ++ e ++ `")"])).

Fixpoint check_files (file_names : list str) (acc : list File * list str)
  : M R (list File * list str) :=
  match file_names with
  | [] => ret acc
  | file_name :: rest =>
      acc' <- check_file file_name acc ;;
      check_files rest acc'
  end.

Definition source_of (file : File) : Source.t :=
  {| Source.document := Some (match display_name file with
                              | Some d => d
                              | None => name file
                              end);
     Source.file_name := Some (name file);
     Source.chunk := None |}.

(** The loop over [not_found_phrases], with its [break]. *)
Fixpoint scan_phrases (phrases : list str) (answer_lower : str)
    (found : bool) : bool :=
  match phrases with
  | [] => found
  | phrase :: rest =>
      if contains phrase answer_lower then false
      else scan_phrases rest answer_lower found
  end.

(** Lines 176-197: the value of [found]. *)
Definition found_flag (answer : str) (sources : list Source.t) : bool :=
  let found := scan_phrases not_found_phrases (lower answer) true in
  match sources with
  | _ :: _ => if 50 <? len answer then true else found
  | [] => found
  end.

Definition no_active_answer (failed_files : list str) : str :=
  let error_msg := `"No active documents available to query." in
  match failed_files with
  | _ :: _ =>
      error_msg ++ nl ++ nl ++ `"Failed files: " ++ join `", " failed_files
  | [] => error_msg
  end.

Definition query_with_files (query : str) (file_names : list str)
  : M R Result.t :=
  catch
    (acc <- check_files file_names ([], []) ;;
     let (files, failed_files) := acc in
     match files with
     | [] =>
         ret {| Result.answer := no_active_answer failed_files;
                Result.sources := [];
                Result.found := false;
                Result.debug_info :=
                  DebugFiles (List.length file_names) 0 failed_files |}
     | _ :: _ =>
         print (DebugQuerying (List.length files) (map name files)) ;;
         text <- remote_call (CallGenerate (context_prompt query) files)
                             (generate_content (context_prompt query) files) ;;
         let answer := match text with
                       | [] => `"No answer generated"
                       | _ :: _ => text
                       end in
         print (DebugResponse (take 200 answer)) ;;
         let sources := map source_of files in
         ret {| Result.answer := answer;
                Result.sources := sources;
                Result.found := found_flag answer sources;
                Result.debug_info :=
                  DebugFiles (List.length file_names) (List.length files)
                             failed_files |}
     end)
    (fun e =>
       print (ErrQueryWithFiles e) ;;
       ret {| Result.answer :=
                `"Error processing query: " ++ e ++ nl ++ nl ++
                `"Please check the console for details.";
              Result.sources := [];
              Result.found := false;
              Result.debug_info := DebugError e |}).

End Client.

(** ** [src/document_manager.py] *)

(** [os.path.basename] and the extension of [os.path.splitext], as
    [posixpath] defines them. *)
Fixpoint basename_from (p acc : str) : str :=
  match p with
  | [] => acc
  | c :: rest =>
      if (c =? 47)%N then basename_from rest [] else basename_from rest (acc ++ [c])
  end.

Definition basename (p : str) : str := basename_from p [].

Fixpoint split_last_dot (s : str) : option (str * str) :=
  match s with
  | [] => None
  | c :: rest =>
      match split_last_dot rest with
      | Some (stem, ext) => Some (c :: stem, ext)
      | None => if (c =? 46)%N then Some ([], c :: rest) else None
      end
  end.

Definition splitext_ext (p : str) : str :=
  match split_last_dot (basename p) with
  | Some (stem, ext) =>
      if existsb (fun c => negb (c =? 46)%N) stem then ext else []
  | None => []
  end.

Module Doc.
(** The dict [doc_info] of [list_documents]. *)
Record t := {
  name : str;
  display_name : str;
  create_time : str;
  update_time : str;
  uri : option str
}.
End Doc.

Module Upload.
(** The dict [upload_document] returns; a key that is not set is
    [None]. *)
Record t := {
  success : bool;
  message : str;
  document_name : option str;
  duplicate : option bool;
  display_name : option str
}.
End Upload.

(** The argument [uploaded_file]: a Streamlit object (it has [read]) or
    a path. *)
Inductive UploadedFile :=
| Streamlit (name : str) (content : list Byte.byte) (type : option str)
| FilePath (path : str).

Section Registry.

Context {R : Type} {G : Genai R} {H : Host}.

Definition or_unknown (o : option str) : str :=
  match o with Some s => s | None => `"Unknown" end.

Definition doc_info (file : File) : Doc.t :=
  {| Doc.name := name file;
     Doc.display_name := match display_name file with
                         | Some d => d
                         | None => basename (name file)
                         end;
     Doc.create_time := or_unknown (create_time file);
     Doc.update_time := or_unknown (update_time file);
     Doc.uri := uri file |}.

Definition list_documents : M R (list Doc.t) :=
  catch (files <- list_files ;; ret (map doc_info files))
        (fun e => raise (`"Failed to list documents: " ++ e)).

(** [display_name or uploaded_file.name], resp. [os.path.basename]. *)
Definition file_display_name (uploaded_file : UploadedFile)
    (display_name : option str) : str :=
  match display_name with
  | Some (c :: d) => c :: d
  | _ => match uploaded_file with
         | Streamlit n _ _ => n
         | FilePath p => basename p
         end
  end.

Definition duplicate_result (file_display_name : str) : Upload.t :=
  {| Upload.success := false;
     Upload.message :=
       `"Document " ++ dq ++ file_display_name ++ dq ++
       `" already exists. Please delete it first or rename the file.";
     Upload.document_name := None;
     Upload.duplicate := Some true;
     Upload.display_name := None |}.

(** The duplicate check: [true] when the loop over [existing_docs]
    reaches its [return]. *)
Definition is_duplicate (file_display_name : str) : M R bool :=
  catch
    (existing_docs <- list_documents ;;
     ret (existsb (fun doc => Str.eqb (Doc.display_name doc) file_display_name)
                  existing_docs))
    (fun e => print (WarnDuplicateCheck e) ;; ret false).

Definition host_call {A} (r : exn + A) : M R A :=
  match r with
  | inr a => ret a
  | inl e => raise e
  end.

(** The block that saves a Streamlit upload to a temporary file: the
    path to upload and its MIME type. *)
Definition stage (uploaded_file : UploadedFile) : exn + (str * option str) :=
  match uploaded_file with
  | Streamlit n content type =>
      match named_temporary_file (splitext_ext n) content with
      | inr tmp_path => inr (tmp_path, type)
      | inl e => inl e
      end
  | FilePath p => inr (p, None)
  end.

(** The [finally] block: the temporary file, if one was made, is
    removed. *)
Definition cleanup (uploaded_file : UploadedFile) (tmp_path : str)
  : option exn :=
  match uploaded_file with
  | Streamlit _ _ _ => unlink tmp_path
  | FilePath _ => None
  end.

Definition uploaded_result (file_display_name : str) (file_object : File)
  : Upload.t :=
  {| Upload.success := true;
     Upload.message :=
       `"Document " ++ dq ++ file_display_name ++ dq ++
       `" uploaded successfully";
     Upload.document_name := Some (name file_object);
     Upload.duplicate := None;
     Upload.display_name := Some file_display_name |}.

Definition upload_document (fuel : nat) (uploaded_file : UploadedFile)
    (display_name : option str) : M R Upload.t :=
  catch
    (let file_display_name := file_display_name uploaded_file display_name in
     dup <- is_duplicate file_display_name ;;
     if (dup : bool) then ret (duplicate_result file_display_name)
     else
       tmp <- host_call (stage uploaded_file) ;;
       let (tmp_path, mime_type) := tmp : str * option str in
       finally
         (file_object <- upload_file fuel tmp_path (Some file_display_name)
                                     mime_type ;;
          ret (uploaded_result file_display_name file_object))
         (match cleanup uploaded_file tmp_path with
          | Some e => raise e
          | None => ret tt
          end))
    (fun e =>
       ret {| Upload.success := false;
              Upload.message := `"Failed to upload document: " ++ e;
              Upload.document_name := None;
              Upload.duplicate := None;
              Upload.display_name := None |}).

Definition get_document_count : M R nat :=
  catch (documents <- list_documents ;; ret (List.length documents))
        (fun _ => ret 0).

Definition get_all_document_names : M R (list str) :=
  catch (documents <- list_documents ;; ret (map Doc.name documents))
        (fun _ => ret []).

End Registry.

(** ** [src/chat_handler.py] *)

Module Response.
(** The dict [query] returns and [_log_query] writes. *)
Record t := {
  question : str;
  answer : str;
  sources : list Source.t;
  found : bool;
  timestamp : str
}.
End Response.

Definition query_marker : str := `"Query:".

(** ['=' * 80] and ['*' * 80] *)
Definition bar (c : char) : str := repeat c 80.

(** The mis-encoded star of the rating line. *)
Definition star : str := [8218%N; 8800%N; 234%N].

(** The loop [for idx, source in enumerate(response['sources'], 1)]. *)
Fixpoint source_lines (idx : nat) (sources : list Source.t) : str :=
  match sources with
  | [] => []
  | source :: rest =>
      `"  " ++ of_N (N.of_nat idx) ++ `". Document: "
      ++ match Source.document source with
         | Some d => d
         | None => `"Unknown"
         end ++ nl
      ++ match Source.chunk source with
         | Some (c :: chunk) =>
             `"     Chunk: " ++ take 100 (c :: chunk) ++ `"..." ++ nl
         | _ => []
         end
      ++ source_lines (S idx) rest
  end.

(** Everything [_log_query] writes for one response. *)
Definition query_block (response : Response.t) : str :=
  nl ++ bar 61%N ++ nl
  ++ `"Timestamp: " ++ Response.timestamp response ++ nl
  ++ `"Query: " ++ Response.question response ++ nl
  ++ nl ++ `"Answer: " ++ Response.answer response ++ nl
  ++ match Response.sources response with
     | _ :: _ =>
         nl ++ `"Sources:" ++ nl ++ source_lines 1 (Response.sources response)
     | [] => nl ++ `"Sources: No sources found" ++ nl
     end
  ++ `"Status: "
  ++ (if Response.found response then `"Found" else `"Not Found") ++ nl
  ++ bar 61%N ++ nl ++ nl.

(** Everything [save_rating] writes. *)
Definition rating_block (now : str) (question : str) (rating : Z)
    (note : option str) : str :=
  nl ++ bar 42%N ++ nl
  ++ `"RATING SUBMITTED: " ++ now ++ nl
  ++ `"Question: " ++ question ++ nl
  ++ `"Rating: " ++ mul star rating ++ `" (" ++ of_Z rating ++ `"/5)" ++ nl
  ++ match note with
     | Some (c :: n) => `"Note: " ++ c :: n ++ nl
     | _ => []
     end
  ++ bar 42%N ++ nl ++ nl.

Definition history_header (verb : str) (now : str) : str :=
  `"# FileRAG Query History" ++ nl
  ++ `"# " ++ verb ++ `": " ++ now ++ nl
  ++ bar 61%N ++ nl ++ nl.

Definition no_documents_answer : str :=
  `"No documents available to query. Please upload documents first.".

Section Chat.

Context {R : Type} {G : Genai R} {H : Host}.

Definition _log_query (response : Response.t) : M R unit :=
  catch
    (open_log ModeAppend ;;
     fwrite (query_block response))
    (fun e => print (WarnLogQuery e)).

Definition query (question : str) : M R Response.t :=
  catch
    (file_names <- get_all_document_names ;;
     match file_names with
     | [] =>
         ts <- now ;;
         ret {| Response.question := question;
                Response.answer := no_documents_answer;
                Response.sources := [];
                Response.found := false;
                Response.timestamp := ts |}
     | _ :: _ =>
         result <- query_with_files question file_names ;;
         ts <- now ;;
         let response :=
           {| Response.question := question;
              Response.answer := Result.answer result;
              Response.sources := Result.sources result;
              Response.found := Result.found result;
              Response.timestamp := ts |} in
         _log_query response ;;
         ret response
     end)
    (fun e =>
       ts <- now ;;
       let error_response :=
         {| Response.question := question;
            Response.answer := `"Error processing query: " ++ e;
            Response.sources := [];
            Response.found := false;
            Response.timestamp := ts |} in
       _log_query error_response ;;
       ret error_response).

Definition get_query_history : M R str :=
  catch
    (e <- log_exists ;;
     if (e : bool) then open_log ModeRead ;; fread
     else ret `"No query history available")
    (fun e => ret (`"Error reading query history: " ++ e)).

Definition clear_history : M R bool :=
  catch
    (open_log ModeWrite ;;
     ts <- now ;;
     fwrite (history_header `"Cleared" ts) ;;
     ret true)
    (fun e => print (ErrClearHistory e) ;; ret false).

Definition get_query_count : M R nat :=
  catch
    (e <- log_exists ;;
     if (e : bool) then
       open_log ModeRead ;;
       content <- fread ;;
       ret (count content query_marker)
     else ret 0)
    (fun _ => ret 0).

Definition save_rating (question answer : str) (rating : Z)
    (note : option str) : M R bool :=
  catch
    (open_log ModeAppend ;;
     ts <- now ;;
     fwrite (rating_block ts question rating note) ;;
     ret true)
    (fun e => print (ErrSaveRating e) ;; ret false).

End Chat.

(** ** Observations the statements are written with *)

Section Observations.

Context {R : Type} {G : Genai R} {H : Host}.

(** The answers of the remote service to the successive [get_file]
    calls of the readiness loop, and the state it is left in. *)
Fixpoint lookups (file_names : list str) (r : R) : list (exn + File) * R :=
  match file_names with
  | [] => ([], r)
  | file_name :: rest =>
      let (x, r1) := genai_get_file file_name r in
      let (xs, r2) := lookups rest r1 in
      (x :: xs, r2)
  end.

(** A handle is in the Active readiness state. *)
Definition is_active (file : File) : bool :=
  match state file with
  | Some s => Str.eqb s `"ACTIVE"
  | None => false
  end.

(** What the readiness loop keeps: Active handles and handles without
    a [state] attribute. *)
Definition kept (x : exn + File) : bool :=
  match x with
  | inr file => match state file with
                | Some s => Str.eqb s `"ACTIVE"
                | None => true
                end
  | inl _ => false
  end.

Fixpoint ready_files (results : list (exn + File)) : list File :=
  match results with
  | [] => []
  | inr file :: rest =>
      if kept (inr file) then file :: ready_files rest else ready_files rest
  | inl _ :: rest => ready_files rest
  end.

(** The entries of [failed_files]: a name and its reason. *)
Definition failure_reason (file_name : str) (x : exn + File) : str :=
  match x with
  | inr file =>
      file_name ++ `" (state: " ++ match state file with
                                   | Some s => s
                                   | None => []
                                   end ++ `")"
  | inl e => file_name ++ `" (error: " ++ e ++ `")"
  end.

Fixpoint failed_reasons (file_names : list str) (results : list (exn + File))
  : list str :=
  match file_names, results with
  | file_name :: names, x :: rest =>
      if kept x then failed_reasons names rest
      else failure_reason file_name x :: failed_reasons names rest
  | _, _ => []
  end.

(** The world after the readiness loop over [file_names]. *)
Definition after_lookups (w : World R) (file_names : list str) : World R :=
  called w (snd (lookups file_names (remote w))) (map CallGetFile file_names).

(** A world that differs by further remote calls and console lines. *)
Definition extended (w : World R) (r' : R) (cs : list Call) (ds : list Diag)
  : World R :=
  {| remote := r'; calls := calls w ++ cs; log_file := log_file w;
     log_fault := log_fault w; console := console w ++ ds;
     clock := clock w |}.

(** The response [query] builds from the result of
    [query_with_files]. *)
Definition response_of (question : str) (result : Result.t) (ts : str)
  : Response.t :=
  {| Response.question := question;
     Response.answer := Result.answer result;
     Response.sources := Result.sources result;
     Response.found := Result.found result;
     Response.timestamp := ts |}.

(** The response of the zero-documents branch of [query]. *)
Definition no_documents_response (question ts : str) : Response.t :=
  {| Response.question := question;
     Response.answer := no_documents_answer;
     Response.sources := [];
     Response.found := false;
     Response.timestamp := ts |}.

(** What [generate_content] returned, as [query_with_files] reads it. *)
Definition answer_text (text : str) : str :=
  match text with
  | [] => `"No answer generated"
  | _ :: _ => text
  end.

(** The same world with another log file and other log faults. *)
Definition with_log (w : World R) (content : option str)
    (fault : Mode -> option exn) : World R :=
  {| remote := remote w; calls := calls w; log_file := content;
     log_fault := fault; console := console w; clock := clock w |}.

(** The content of the log file, empty when there is none. *)
Definition log_text (w : World R) : str :=
  match log_file w with
  | Some content => content
  | None => []
  end.

(** Occurrences of the query marker in a text, as [count] finds them. *)
Definition marks (s : str) : nat := count s query_marker.




(** A text contains the query marker. *)
Definition mentions (s : str) : bool := contains query_marker s.



(** The classification as the specification words it. *)
Definition spec_found (answer : str) (attributions : list Source.t) : bool :=
  if negb (Nat.eqb (List.length attributions) 0) && (50 <? len answer)
  then true
  else negb (existsb (fun phrase => contains phrase (lower answer))
                     not_found_phrases).

End Observations.

(** ** A mock of the collaborators, for concrete runs *)

Module Mock.

(** The remote state is the list of stored handles; [generate_content]
    answers with a fixed text, and a listing can be made to fail. *)
Record service := {
  stored : list File;
  reply : exn + str;
  listing_down : option exn
}.

Definition find_file (file_name : str) (fs : list File) : option File :=
  find (fun f => Str.eqb (name f) file_name) fs.

#[export] Instance genai : Genai service := {
  genai_upload_file path display mime r :=
    let f := {| name := `"files/" ++ basename path;
                display_name := display;
                state := Some `"ACTIVE";
                create_time := None; update_time := None; uri := None |} in
    (inr f, {| stored := stored r ++ [f]; reply := reply r;
               listing_down := listing_down r |});
  genai_get_file file_name r :=
    (match find_file file_name (stored r) with
     | Some f => inr f
     | None => inl `"404 file not found"
     end, r);
  genai_list_files r :=
    (match listing_down r with
     | Some e => inl e
     | None => inr (stored r)
     end, r);
  generate_content prompt files r := (reply r, r)
}.

#[export] Instance host : Host := {
  unicode_lower _ c _ := [c];
  isoformat_now n := `"2025-01-01T00:00:" ++ of_N (N.of_nat (10 + n));
  named_temporary_file suffix content := inr (`"/tmp/tmp0" ++ suffix);
  unlink _ := None;
  attribute_error _ := `"object has no attribute 'state'";
  file_not_found := `"No such file or directory"
}.

Definition handle (id display : str) (st : option str) : File :=
  {| name := id; display_name := Some display; state := st;
     create_time := None; update_time := None; uri := None |}.

Definition world (fs : list File) (r : exn + str) (log : option str)
    (fault : Mode -> option exn) : World service :=
  {| remote := {| stored := fs; reply := r; listing_down := None |};
     calls := []; log_file := log; log_fault := fault;
     console := []; clock := 0 |}.

(** The same world when the listing of the service is down. *)
Definition world_down (fs : list File) (r : exn + str) (log : option str)
    (fault : Mode -> option exn) (e : exn) : World service :=
  {| remote := {| stored := fs; reply := r; listing_down := Some e |};
     calls := []; log_file := log; log_fault := fault;
     console := []; clock := 0 |}.

Definition no_fault : Mode -> option exn := fun _ => None.

Definition notes (st : option str) : File := handle `"files/a" `"notes.txt" st.

Definition header : str := `"# FileRAG Query History" ++ nl.

(** A world with one Active document, [notes.txt]. *)
Definition active := world [notes (Some `"ACTIVE")].

Definition answer80 : str :=
  `"The capital of France is Paris; notes.txt says so in its first paragraph, line 2".

Definition answer30 : str := `"X is not found in the notes...".

Definition a_source : Source.t :=
  {| Source.document := Some `"notes.txt";
     Source.file_name := Some `"files/a";
     Source.chunk := None |}.


Definition plain_response : Response.t :=
  {| Response.question := `"What is X?";
     Response.answer := `"X is a letter.";
     Response.sources := [a_source];
     Response.found := true;
     Response.timestamp := `"2025-01-01T00:00:10" |}.

Definition paris : str := `"Paris is the capital of France.".

Definition read_only : Mode -> option exn :=
  fun m => match m with
           | ModeRead => None
           | _ => Some `"Permission denied"
           end.

End Mock.


(** ** The rest of the modules *)

(** [genai.delete_file], the one SDK call the query and upload paths do
    not make. *)
Class GenaiAdmin (R : Type) := {
  genai_delete_file : str -> R -> (exn + unit) * R
}.

Module Deletion.
(** The dict [delete_document] and [delete_store] return. *)
Record t := {
  success : bool;
  message : str
}.
End Deletion.

Module Detail.
(** An entry of [details] in the result of a batch upload. *)
Record t := {
  file : str;
  success : bool;
  message : str
}.
End Detail.

Module Batch.
(** The dict [batch_upload_documents] returns. *)
Record t := {
  total : nat;
  successful : nat;
  failed : nat;
  details : list Detail.t
}.
End Batch.

Module Shown.
(** An entry of the formatted sources. *)
Record t := {
  index : nat;
  document : str;
  chunk : str
}.
End Shown.

Module Display.
(** The dict [format_response_for_display] returns. *)
Record t := {
  message : str;
  answer : str;
  sources : list Shown.t;
  has_answer : bool
}.
End Display.

Section Administration.

Context {R : Type} {G : Genai R} {A : GenaiAdmin R} {H : Host}.

(** A call of the remote service that the call record has no entry
    for. *)
Definition unrecorded {T} (op : R -> (exn + T) * R) : M R T :=
  fun w =>
    let (r, remote') := op (remote w) in
    match r with
    | inr a => (Return a, called w remote' [])
    | inl e => (Raise e, called w remote' [])
    end.

(** [GeminiClient.delete_file] *)
Definition delete_file (file_name : str) : M R bool :=
  catch (unrecorded (genai_delete_file file_name) ;; ret true)
        (fun e => raise (`"Failed to delete file: " ++ e)).

(** [DocumentManager.delete_document] *)
Definition delete_document (document_name : str) : M R Deletion.t :=
  catch
    (delete_file document_name ;;
     ret {| Deletion.success := true;
            Deletion.message := `"Document deleted successfully" |})
    (fun e =>
       ret {| Deletion.success := false;
              Deletion.message := `"Failed to delete document: " ++ e |}).

(** [file.name if hasattr(file, 'name') else os.path.basename(file)] *)
Definition uploaded_name (file : UploadedFile) : str :=
  match file with
  | Streamlit n _ _ => n
  | FilePath p => basename p
  end.

(** One round of the loop of [batch_upload_documents]. *)
Definition record_upload (file : UploadedFile) (result : Upload.t)
    (results : Batch.t) : Batch.t :=
  {| Batch.total := Batch.total results;
     Batch.successful := if Upload.success result
                         then S (Batch.successful results)
                         else Batch.successful results;
     Batch.failed := if Upload.success result
                     then Batch.failed results
                     else S (Batch.failed results);
     Batch.details :=
       Batch.details results ++
       [ {| Detail.file := uploaded_name file;
            Detail.success := Upload.success result;
            Detail.message := Upload.message result |} ] |}.

Fixpoint upload_each (fuel : nat) (uploaded_files : list UploadedFile)
    (results : Batch.t) : M R Batch.t :=
  match uploaded_files with
  | [] => ret results
  | file :: rest =>
      result <- upload_document fuel file None ;;
      upload_each fuel rest (record_upload file result results)
  end.

(** [DocumentManager.batch_upload_documents]; [fuel] bounds the polls
    of each upload. *)
Definition batch_upload_documents (fuel : nat)
    (uploaded_files : list UploadedFile) : M R Batch.t :=
  upload_each fuel uploaded_files
    {| Batch.total := List.length uploaded_files;
       Batch.successful := 0;
       Batch.failed := 0;
       Batch.details := [] |}.

(** The loop of [format_response_for_display] over
    [enumerate(response['sources'], 1)]. *)
Fixpoint formatted_sources (idx : nat) (sources : list Source.t)
  : list Shown.t :=
  match sources with
  | [] => []
  | source :: rest =>
      {| Shown.index := idx;
         Shown.document := match Source.document source with
                           | Some d => d
                           | None => `"Unknown"
                           end;
         Shown.chunk := match Source.chunk source with
                        | Some c => c
                        | None => []
                        end |}
      :: formatted_sources (S idx) rest
  end.

(** [ChatHandler.format_response_for_display], on a response that has
    its [answer] key, as those of [query] have. *)
Definition format_response_for_display (response : Response.t) : Display.t :=
  let answer := Response.answer response in
  {| Display.message := answer;
     Display.answer := answer;
     Display.sources := formatted_sources 1 (Response.sources response);
     Display.has_answer :=
       match answer with
       | [] => false
       | _ :: _ => negb (Str.eqb answer `"No response generated")
       end |}.

End Administration.

(** ** [src/store_manager.py] *)

Module Config.
(** The dict [self.config]. *)
Record t := {
  store_initialized : bool;
  store_name : option str;
  created_at : option str
}.
End Config.

(** The store manager: its configuration in memory, the configuration
    file ([None] when there is none) and the error that writing the
    file raises, if any. *)
Record Store := {
  config : Config.t;
  config_file : option Config.t;
  save_fault : option exn
}.

Module Creation.
(** The dict [create_store] returns. *)
Record t := {
  success : bool;
  message : str;
  store_name : option str;
  created_at : option str
}.
End Creation.

(** The dict [get_store_info] returns, by its key [exists]. *)
Inductive StoreInfo :=
| NoStore (message : str)
| StoreFound (store_name created_at : option str) (document_count : nat)
             (error : option str).

Definition default_config : Config.t :=
  {| Config.store_initialized := false;
     Config.store_name := None;
     Config.created_at := None |}.

Definition with_config (st : Store) (c : Config.t) : Store :=
  {| config := c; config_file := config_file st; save_fault := save_fault st |}.

(** [StoreManager._save_config] *)
Definition _save_config (st : Store) : exn + Store :=
  match save_fault st with
  | Some e => inl (`"Failed to save config: " ++ e)
  | None => inr {| config := config st;
                   config_file := Some (config st);
                   save_fault := save_fault st |}
  end.

(** [StoreManager.store_exists] *)
Definition store_exists (st : Store) : bool :=
  Config.store_initialized (config st).

(** [StoreManager.get_store_name] *)
Definition get_store_name (st : Store) : option str :=
  Config.store_name (config st).

Section StoreManager.

Context {R : Type} {G : Genai R} {A : GenaiAdmin R} {H : Host}.

(** [StoreManager.create_store]: the result, the manager and the world
    it leaves. *)
Definition create_store (store_name : str) (st : Store) (w : World R)
  : Creation.t * Store * World R :=
  if store_exists st then
    ({| Creation.success := false;
        Creation.message := `"Store already exists";
        Creation.store_name := Config.store_name (config st);
        Creation.created_at := None |}, st, w)
  else
    let ts := isoformat_now (clock w) in
    let st1 := with_config st {| Config.store_initialized := true;
                                 Config.store_name := Some store_name;
                                 Config.created_at := Some ts |} in
    match _save_config st1 with
    | inr st2 =>
        ({| Creation.success := true;
            Creation.message := `"Store initialized successfully";
            Creation.store_name := Some store_name;
            Creation.created_at := Some ts |}, st2, ticked w)
    | inl e =>
        ({| Creation.success := false;
            Creation.message := `"Failed to initialize store: " ++ e;
            Creation.store_name := None;
            Creation.created_at := None |}, st1, ticked w)
    end.

(** The loop of [delete_store] over the listed files, each deletion in
    its own [try ... except: pass]. *)
Fixpoint delete_each (files : list File) (w : World R) : World R :=
  match files with
  | [] => w
  | file :: rest => delete_each rest (snd (delete_file (name file) w))
  end.

(** [StoreManager.delete_store] *)
Definition delete_store (st : Store) (w : World R)
  : Deletion.t * Store * World R :=
  if negb (Config.store_initialized (config st)) then
    ({| Deletion.success := false;
        Deletion.message := `"No store to delete" |}, st, w)
  else
    let w1 := match list_files w with
              | (Return files, w') => delete_each files w'
              | (_, w') => w'
              end in
    let st1 := with_config st default_config in
    match _save_config st1 with
    | inr st2 =>
        ({| Deletion.success := true;
            Deletion.message := `"Store deleted successfully" |}, st2, w1)
    | inl e =>
        ({| Deletion.success := false;
            Deletion.message := `"Failed to delete store: " ++ e |}, st1, w1)
    end.

(** [StoreManager.get_store_info] *)
Definition get_store_info (st : Store) (w : World R) : StoreInfo * World R :=
  if negb (store_exists st) then (NoStore `"No store configured", w)
  else
    match list_files w with
    | (Return files, w') =>
        (StoreFound (Config.store_name (config st))
                    (Config.created_at (config st))
                    (List.length files) None, w')
    | (Raise e, w') =>
        (StoreFound (Config.store_name (config st))
                    (Config.created_at (config st)) 0 (Some e), w')
    | (Diverge, w') =>
        (StoreFound (Config.store_name (config st))
                    (Config.created_at (config st)) 0 None, w')
    end.

End StoreManager.

(** ** More mocks *)

Module Slow.

(** A service whose uploads stay in the PROCESSING state for [pending]
    more polls and then settle in the state [final]. *)
Record service := {
  pending : nat;
  final : str
}.

Definition handle_of (r : service) : File :=
  {| name := `"files/slow";
     display_name := Some `"slow.pdf";
     state := Some (match pending r with
                    | O => final r
                    | S _ => `"PROCESSING"
                    end);
     create_time := None; update_time := None; uri := None |}.

#[export] Instance genai : Genai service := {
  genai_upload_file path display mime r := (inr (handle_of r), r);
  genai_get_file file_name r :=
    let r' := {| pending := Nat.pred (pending r); final := final r |} in
    (inr (handle_of r'), r');
  genai_list_files r := (inr [handle_of r], r);
  generate_content prompt files r := (inl `"not available", r)
}.

Definition world (n : nat) (st : str) : World service :=
  {| remote := {| pending := n; final := st |};
     calls := []; log_file := None; log_fault := fun _ => None;
     console := []; clock := 0 |}.

End Slow.

Module MockAdmin.

(** Deleting removes the stored handle of that name, or fails. *)
#[export] Instance admin : GenaiAdmin Mock.service := {
  genai_delete_file file_name r :=
    match Mock.find_file file_name (Mock.stored r) with
    | Some _ =>
        (inr tt,
         {| Mock.stored :=
              filter (fun f => negb (Str.eqb (name f) file_name)) (Mock.stored r);
            Mock.reply := Mock.reply r;
            Mock.listing_down := Mock.listing_down r |})
    | None => (inl `"404 file not found", r)
    end
}.

(** A host whose temporary files cannot be removed. *)
Definition sticky_host : Host := {|
  unicode_lower := fun _ c _ => [c];
  isoformat_now := fun n => `"2025-01-01T00:00:" ++ of_N (N.of_nat (10 + n));
  named_temporary_file := fun suffix content => inr (`"/tmp/tmp0" ++ suffix);
  unlink := fun _ => Some `"file is in use";
  attribute_error := fun _ => `"object has no attribute 'state'";
  file_not_found := `"No such file or directory"
|}.

Definition fresh_store : Store :=
  {| config := default_config; config_file := None; save_fault := None |}.

Definition locked_store : Store :=
  {| config := default_config; config_file := None;
     save_fault := Some `"Permission denied" |}.

Definition two_files : list File :=
  [Mock.handle `"files/a" `"notes.txt" (Some `"ACTIVE");
   Mock.handle `"files/b" `"plan.txt" (Some `"ACTIVE")].

End MockAdmin.

(** * Properties *)

(** ** The effect layer *)

Section EffectFacts.

Context {R : Type}.

Lemma called_called (w : World R) r1 c1 r2 c2 :
  called (called w r1 c1) r2 c2 = called w r2 (c1 ++ c2).
Proof. unfold called; simpl. now rewrite app_assoc. Qed.

Lemma called_nil (w : World R) : called w (remote w) [] = w.
Proof. destruct w. unfold called; simpl. now rewrite app_nil_r. Qed.

End EffectFacts.

(** ** The registry's listing *)

Section ListingFacts.

Context {R : Type} {G : Genai R} {H : Host}.

Lemma list_documents_ok (w : World R) files r1 :
  genai_list_files (remote w) = (inr files, r1) ->
  list_documents w = (Return (map doc_info files), called w r1 [CallListFiles]).
Proof.
  intros E. unfold list_documents, list_files, catch, bind, remote_call.
  now rewrite E.
Qed.

Lemma list_documents_down (w : World R) e r1 :
  genai_list_files (remote w) = (inl e, r1) ->
  list_documents w =
    (Raise (`"Failed to list documents: " ++ `"Failed to list files: " ++ e),
     called w r1 [CallListFiles]).
Proof.
  intros E. unfold list_documents, list_files, catch, bind, remote_call.
  now rewrite E.
Qed.

(** [get_all_document_names] always returns, after exactly one listing
    call. *)
Lemma get_all_document_names_run (w : World R) :
  get_all_document_names w =
    (Return (match fst (genai_list_files (remote w)) with
             | inr files => map name files
             | inl _ => []
             end),
     called w (snd (genai_list_files (remote w))) [CallListFiles]).
Proof.
  unfold get_all_document_names.
  destruct (genai_list_files (remote w)) as [[e | files] r1] eqn:E; simpl.
  - unfold catch, bind. now rewrite (list_documents_down _ E).
  - unfold catch, bind. rewrite (list_documents_ok _ E).
    unfold ret. now rewrite map_map.
Qed.

Lemma get_document_count_run (w : World R) :
  get_document_count w =
    (Return (match fst (genai_list_files (remote w)) with
             | inr files => List.length files
             | inl _ => 0
             end),
     called w (snd (genai_list_files (remote w))) [CallListFiles]).
Proof.
  unfold get_document_count.
  destruct (genai_list_files (remote w)) as [[e | files] r1] eqn:E; simpl.
  - unfold catch, bind. now rewrite (list_documents_down _ E).
  - unfold catch, bind. rewrite (list_documents_ok _ E).
    unfold ret. now rewrite length_map.
Qed.

End ListingFacts.

(** ** The readiness loop *)

Section ReadinessFacts.

Context {R : Type} {G : Genai R} {H : Host}.

Lemma check_file_run file_name files failed (w : World R) :
  check_file file_name (files, failed) w =
    (let (x, r1) := genai_get_file file_name (remote w) in
     (Return (files ++ ready_files [x], failed ++ failed_reasons [file_name] [x]),
      called w r1 [CallGetFile file_name])).
Proof.
  unfold check_file, catch, bind, remote_call.
  destruct (genai_get_file file_name (remote w)) as [[e | f] r1]; simpl.
  - now rewrite app_nil_r.
  - destruct (state f) as [s |]; simpl.
    + destruct (Str.eqb s `"ACTIVE"); unfold ret; now rewrite app_nil_r.
    + unfold ret. now rewrite app_nil_r.
Qed.

(** The loop ends with the kept handles and the reasons of the others,
    in the order of the names, after one [get_file] call per name. *)
Lemma check_files_run file_names : forall files failed (w : World R),
  check_files file_names (files, failed) w =
    (Return (files ++ ready_files (fst (lookups file_names (remote w))),
             failed ++ failed_reasons file_names
                                      (fst (lookups file_names (remote w)))),
     called w (snd (lookups file_names (remote w)))
            (map CallGetFile file_names)).
Proof.
  induction file_names as [| n rest IH]; intros files failed w.
  - simpl. unfold ret. now rewrite !app_nil_r, called_nil.
  - cbn [check_files]. unfold bind. rewrite check_file_run.
    cbn [lookups].
    destruct (genai_get_file n (remote w)) as [x r1].
    rewrite IH. cbn [remote called].
    destruct (lookups rest r1) as [xs r2]. cbn [fst snd].
    rewrite called_called, <- !app_assoc. repeat f_equal.
    + destruct x as [e | f]; simpl; [reflexivity |].
      destruct (state f) as [s |]; [destruct (Str.eqb s `"ACTIVE") |]; reflexivity.
    + destruct x as [e | f]; simpl; [reflexivity |].
      destruct (state f) as [s |]; [destruct (Str.eqb s `"ACTIVE") |]; reflexivity.
Qed.

Lemma lookups_length file_names : forall r : R,
  List.length (fst (lookups file_names r)) = List.length file_names.
Proof.
  induction file_names as [| n rest IH]; intros r; simpl; [reflexivity |].
  destruct (genai_get_file n r) as [x r1].
  specialize (IH r1). destruct (lookups rest r1) as [xs r2].
  simpl in *. now rewrite IH.
Qed.

(** A handle is kept exactly when it was returned by a lookup and is
    Active or has no [state]. *)
Lemma in_ready_files results f :
  In f (ready_files results) <-> In (inr f) results /\ kept (inr f) = true.
Proof.
  induction results as [| x rest IH]; simpl; [tauto |].
  destruct x as [e | g].
  - rewrite IH. split; [tauto |]. intros [[D | D] K]; [discriminate | tauto].
  - destruct (match state g with Some s => Str.eqb s `"ACTIVE" | None => true end)
      eqn:K; simpl; rewrite IH.
    + split.
      * intros [-> | [I K']]; [simpl; tauto | tauto].
      * intros [[E | I] K']; [inversion E; tauto | tauto].
    + split; [tauto |].
      intros [[E | I] K']; [| tauto].
      inversion E; subst. simpl in K'. congruence.
Qed.

Lemma ready_files_none (results : list (exn + File)) :
  forallb (fun x => negb (kept x)) results = true -> ready_files results = [].
Proof.
  induction results as [| x xs IH]; [reflexivity |].
  cbn [forallb]. intros K. apply andb_prop in K. destruct K as [K1 K2].
  destruct x as [e | f]; cbn [ready_files]; [now apply IH |].
  apply negb_true_iff in K1. rewrite K1. now apply IH.
Qed.

(** When nothing is kept, every name has its reason. *)
Lemma failed_reasons_all file_names : forall results,
  List.length results = List.length file_names ->
  ready_files results = [] ->
  failed_reasons file_names results =
    map (fun p => failure_reason (fst p) (snd p)) (combine file_names results).
Proof.
  induction file_names as [| n rest IH]; intros [| x xs] L E;
    simpl in *; try reflexivity; try discriminate.
  unfold kept in *.
  destruct x as [e | f].
  - f_equal. apply IH; [lia | assumption].
  - destruct (match state f with Some s => Str.eqb s `"ACTIVE" | None => true end);
      [discriminate |].
    f_equal. apply IH; [lia | assumption].
Qed.

End ReadinessFacts.

(** ** [query_with_files], case by case *)

Section QueryWithFilesFacts.

Context {R : Type} {G : Genai R} {H : Host}.

Lemma query_with_files_no_ready query file_names (w : World R) :
  ready_files (fst (lookups file_names (remote w))) = [] ->
  query_with_files query file_names w =
    (Return
       {| Result.answer :=
            no_active_answer
              (failed_reasons file_names (fst (lookups file_names (remote w))));
          Result.sources := [];
          Result.found := false;
          Result.debug_info :=
            DebugFiles (List.length file_names) 0
              (failed_reasons file_names (fst (lookups file_names (remote w)))) |},
     after_lookups w file_names).
Proof.
  intros E. unfold query_with_files, catch, bind.
  rewrite check_files_run, E. reflexivity.
Qed.

Lemma query_with_files_generated query file_names (w : World R) f fs text r2 :
  ready_files (fst (lookups file_names (remote w))) = f :: fs ->
  generate_content (context_prompt query) (f :: fs)
                   (snd (lookups file_names (remote w))) = (inr text, r2) ->
  query_with_files query file_names w =
    (Return
       {| Result.answer := answer_text text;
          Result.sources := map source_of (f :: fs);
          Result.found := found_flag (answer_text text) (map source_of (f :: fs));
          Result.debug_info :=
            DebugFiles (List.length file_names) (List.length (f :: fs))
              (failed_reasons file_names (fst (lookups file_names (remote w)))) |},
     printed
       (called
          (printed (after_lookups w file_names)
                   (DebugQuerying (List.length (f :: fs)) (map name (f :: fs))))
          r2 [CallGenerate (context_prompt query) (f :: fs)])
       (DebugResponse (take 200 (answer_text text)))).
Proof.
  intros E Gen. unfold query_with_files, catch, bind.
  rewrite check_files_run, E. cbn [app]. unfold print, remote_call.
  unfold after_lookups. cbn [remote printed called].
  rewrite Gen. destruct text; reflexivity.
Qed.

Lemma query_with_files_generation_failed query file_names (w : World R)
    f fs e r2 :
  ready_files (fst (lookups file_names (remote w))) = f :: fs ->
  generate_content (context_prompt query) (f :: fs)
                   (snd (lookups file_names (remote w))) = (inl e, r2) ->
  query_with_files query file_names w =
    (Return
       {| Result.answer :=
            `"Error processing query: " ++ e ++ nl ++ nl ++
            `"Please check the console for details.";
          Result.sources := [];
          Result.found := false;
          Result.debug_info := DebugError e |},
     printed
       (called
          (printed (after_lookups w file_names)
                   (DebugQuerying (List.length (f :: fs)) (map name (f :: fs))))
          r2 [CallGenerate (context_prompt query) (f :: fs)])
       (ErrQueryWithFiles e)).
Proof.
  intros E Gen. unfold query_with_files, catch, bind.
  rewrite check_files_run, E. cbn [app]. unfold print, remote_call.
  unfold after_lookups. cbn [remote printed called].
  rewrite Gen. reflexivity.
Qed.

(** [query_with_files] always returns.  It only talks to the remote
    service and the console, and what it returns depends on the state
    of the remote service alone. *)
Lemma query_with_files_frame query file_names (r : R) :
  exists result r' cs ds,
    forall w : World R, remote w = r ->
      query_with_files query file_names w =
        (Return result, extended w r' cs ds).
Proof.
  destruct (ready_files (fst (lookups file_names r))) as [| f fs] eqn:E.
  - eexists _, _, (map CallGetFile file_names), []. intros w Hw.
    rewrite query_with_files_no_ready by (now rewrite Hw).
    unfold after_lookups, called, extended. rewrite Hw, app_nil_r.
    reflexivity.
  - destruct (generate_content (context_prompt query) (f :: fs)
                               (snd (lookups file_names r)))
      as [[e | text] r2] eqn:Gen.
    + eexists _, r2, (map CallGetFile file_names ++ [_]), [_; _]. intros w Hw.
      rewrite (@query_with_files_generation_failed _ _ w f fs e r2)
        by (now rewrite Hw).
      unfold after_lookups, called, printed, extended; simpl.
      rewrite ?Hw, <- !app_assoc. reflexivity.
    + eexists _, r2, (map CallGetFile file_names ++ [_]), [_; _]. intros w Hw.
      rewrite (@query_with_files_generated _ _ w f fs text r2)
        by (now rewrite Hw).
      unfold after_lookups, called, printed, extended; simpl.
      rewrite ?Hw, <- !app_assoc. reflexivity.
Qed.

End QueryWithFilesFacts.

(** ** The chat handler, step by step *)

Section ChatFacts.

Context {R : Type} {G : Genai R} {H : Host}.

(** [_log_query] always returns: it appends the block, or reports the
    failure on the console and leaves the file alone. *)
Lemma _log_query_run response (w : World R) :
  _log_query response w =
    (Return tt,
     match log_fault w ModeAppend with
     | Some e => printed w (WarnLogQuery e)
     | None => set_log w (Some (log_text w ++ query_block response))
     end).
Proof.
  unfold _log_query, catch, bind, open_log, fwrite, print, log_text.
  destruct (log_fault w ModeAppend) as [e |]; [reflexivity |].
  destruct (log_file w) as [old |] eqn:L; cbn [log_file set_log];
    rewrite ?L; reflexivity.
Qed.

Lemma query_no_documents question (w w1 : World R) :
  get_all_document_names w = (Return [], w1) ->
  query question w =
    (Return (no_documents_response question (isoformat_now (clock w1))),
     ticked w1).
Proof.
  intros E. unfold query, catch, bind. rewrite E. reflexivity.
Qed.

Lemma query_with_documents question (w w1 w2 : World R) n ns result :
  get_all_document_names w = (Return (n :: ns), w1) ->
  query_with_files question (n :: ns) w1 = (Return result, w2) ->
  query question w =
    (Return (response_of question result (isoformat_now (clock w2))),
     snd (_log_query (response_of question result (isoformat_now (clock w2)))
                     (ticked w2))).
Proof.
  intros E Q. unfold query, catch, bind. rewrite E, Q.
  unfold now, response_of. rewrite !_log_query_run. reflexivity.
Qed.

Lemma no_generate_among_lookups prompt files file_names :
  ~ In (CallGenerate prompt files) (map CallGetFile file_names).
Proof.
  intros I. apply in_map_iff in I. destruct I as [n [D _]]. discriminate.
Qed.

(** The end of every query block is its status line and the closing
    bar. *)
Lemma query_block_status response :
  exists before,
    query_block response =
      before ++ `"Status: "
      ++ (if Response.found response then `"Found" else `"Not Found")
      ++ nl ++ bar 61%N ++ nl ++ nl.
Proof.
  exists (nl ++ bar 61%N ++ nl
          ++ `"Timestamp: " ++ Response.timestamp response ++ nl
          ++ `"Query: " ++ Response.question response ++ nl
          ++ nl ++ `"Answer: " ++ Response.answer response ++ nl
          ++ match Response.sources response with
             | _ :: _ =>
                 nl ++ `"Sources:" ++ nl
                 ++ source_lines 1 (Response.sources response)
             | [] => nl ++ `"Sources: No sources found" ++ nl
             end).
  unfold query_block. now rewrite <- !app_assoc.
Qed.

(** With at least one document name, [query] returns the response
    built from [query_with_files] and passes it to [_log_query]. *)
Lemma query_with_documents_run question (w w1 : World R) n ns :
  get_all_document_names w = (Return (n :: ns), w1) ->
  exists result r' cs ds,
    query_with_files question (n :: ns) w1
      = (Return result, extended w1 r' cs ds)
    /\ query question w =
         (Return (response_of question result (isoformat_now (clock w))),
          snd (_log_query
                 (response_of question result (isoformat_now (clock w)))
                 (ticked (extended w1 r' cs ds)))).
Proof.
  intros E.
  destruct (query_with_files_frame question (n :: ns) (remote w1))
    as (result & r' & cs & ds & Q).
  specialize (Q w1 eq_refl). exists result, r', cs, ds.
  split; [assumption |].
  erewrite query_with_documents; [| exact E | exact Q].
  rewrite get_all_document_names_run in E. inversion E as [[E1 E2]].
  reflexivity.
Qed.

End ChatFacts.

(** ** The claims about the query pipeline *)

Section PipelineClaims.

Context {R : Type} {G : Genai R} {H : Host}.

(** C3: whenever the registry reports zero documents, [query] returns
    the fixed "no documents available" answer with [found = False] and
    no sources, and the record of remote calls gains no generation
    call. *)
Theorem query_without_documents question (w w1 : World R) :
  get_all_document_names w = (Return [], w1) ->
  exists ts w',
    query question w =
      (Return {| Response.question := question;
                 Response.answer := no_documents_answer;
                 Response.sources := [];
                 Response.found := false;
                 Response.timestamp := ts |}, w')
    /\ calls w' = calls w ++ [CallListFiles]
    /\ forall prompt files,
         In (CallGenerate prompt files) (calls w') ->
         In (CallGenerate prompt files) (calls w).
Proof.
  intros E. exists (isoformat_now (clock w1)), (ticked w1).
  split; [now apply query_no_documents |].
  rewrite get_all_document_names_run in E. inversion E as [[E1 E2]].
  cbn [calls ticked called]. split; [reflexivity |].
  intros prompt files I. apply in_app_or in I.
  destruct I as [I | [D | []]]; [assumption | discriminate].
Qed.

(** C6, as amended: when the requested set is non-empty and no lookup
    yields a handle that is Active or lacks a [state] attribute,
    [query_with_files] returns [found = False], no sources and the
    answer that lists every requested name with its reason, and the
    record of remote calls gains no generation call. *)
Theorem no_kept_document_no_generation query file_names (w : World R) :
  file_names <> [] ->
  forallb (fun x => negb (kept x)) (fst (lookups file_names (remote w))) = true ->
  exists result w',
    query_with_files query file_names w = (Return result, w')
    /\ Result.found result = false
    /\ Result.sources result = []
    /\ Result.answer result =
         `"No active documents available to query." ++ nl ++ nl ++
         `"Failed files: " ++
         join `", " (map (fun p => failure_reason (fst p) (snd p))
                        (combine file_names
                                 (fst (lookups file_names (remote w)))))
    /\ forall prompt files,
         In (CallGenerate prompt files) (calls w') ->
         In (CallGenerate prompt files) (calls w).
Proof.
  intros NE NK.
  pose proof (ready_files_none _ NK) as E.
  eexists _, _. split; [now apply query_with_files_no_ready |].
  cbn [Result.found Result.sources Result.answer].
  repeat split.
  - rewrite failed_reasons_all by (now rewrite ?lookups_length).
    pose proof (lookups_length file_names (remote w)) as L.
    destruct file_names as [| n ns]; [congruence |].
    destruct (fst (lookups (n :: ns) (remote w))) as [| x xs];
      [discriminate |].
    reflexivity.
  - intros prompt files I. unfold after_lookups in I. cbn [calls called] in I.
    apply in_app_or in I. destruct I as [I | I]; [assumption |].
    now apply no_generate_among_lookups in I.
Qed.

(** C10: a handle without a [state] attribute is kept by the readiness
    loop: the generation call is made with a document list that
    contains it, and when that call answers, the sources of the result
    contain its attribution. *)
Theorem stateless_handle_is_queried query file_names (w : World R) f :
  In (inr f) (fst (lookups file_names (remote w))) ->
  state f = None ->
  let files := ready_files (fst (lookups file_names (remote w))) in
  In f files
  /\ exists result w',
       query_with_files query file_names w = (Return result, w')
       /\ In (CallGenerate (context_prompt query) files) (calls w')
       /\ forall text r2,
            generate_content (context_prompt query) files
              (snd (lookups file_names (remote w))) = (inr text, r2) ->
            In (source_of f) (Result.sources result).
Proof.
  intros I S files.
  assert (K : In f files).
  { apply in_ready_files. split; [assumption |]. simpl. now rewrite S. }
  split; [assumption |].
  destruct files as [| g gs] eqn:E; [contradiction |].
  destruct (generate_content (context_prompt query) (g :: gs)
              (snd (lookups file_names (remote w)))) as [[e | text] r2] eqn:Gen.
  - eexists _, _.
    split; [now apply (@query_with_files_generation_failed _ _ _ _ _ _ g gs e r2) |].
    split.
    + cbn [calls printed called]. apply in_or_app. right. now left.
    + intros text r3 D. discriminate.
  - eexists _, _.
    split; [now apply (@query_with_files_generated _ _ _ _ _ _ g gs text r2) |].
    split.
    + cbn [calls printed called]. apply in_or_app. right. now left.
    + intros _ _ _. cbn [Result.sources]. now apply in_map.
Qed.

End PipelineClaims.

(** ** The claims about [query] and the log *)

Section QueryClaims.

Context {R : Type} {G : Genai R} {H : Host}.

(** C1 (the code departs from it): whenever the generation call of a
    query answers with exactly the refusal sentence, [query] returns
    [found = True], and the block it appends to a writable log ends
    with the line [Status: Found].  The sentence has 56 characters and
    the sources are never empty at that point, so the length override
    always undoes the phrase match. *)
Theorem refusal_sentence_reported_found question (w w1 : World R)
    n ns f fs r2 :
  get_all_document_names w = (Return (n :: ns), w1) ->
  ready_files (fst (lookups (n :: ns) (remote w1))) = f :: fs ->
  generate_content (context_prompt question) (f :: fs)
    (snd (lookups (n :: ns) (remote w1))) = (inr refusal_sentence, r2) ->
  exists response w',
    query question w = (Return response, w')
    /\ Response.answer response = refusal_sentence
    /\ Response.found response = true
    /\ (log_fault w ModeAppend = None ->
        exists before,
          log_file w' =
            Some (before ++ `"Status: Found" ++ nl ++ bar 61%N ++ nl ++ nl)).
Proof.
  intros E Rdy Gen.
  pose proof (query_with_files_generated _ _ _ Rdy Gen) as Q.
  eexists _, _. split; [eapply query_with_documents; [exact E | exact Q] |].
  split; [reflexivity |]. split; [reflexivity |].
  intros W. rewrite _log_query_run. cbn [snd log_fault ticked printed called].
  unfold after_lookups. cbn [log_fault called].
  rewrite get_all_document_names_run in E. inversion E as [[E1 E2]].
  cbn [log_fault called]. rewrite W. cbn [log_file set_log].
  match goal with
  | |- context [query_block ?r] =>
      destruct (query_block_status r) as [before B]; rewrite B
  end.
  eexists. rewrite app_assoc. reflexivity.
Qed.


(** C7, as amended: [query] never raises, it always returns a
    response.  When the listing of the registry fails the response is
    the "no documents available" one, and when the generation call
    fails it carries [found = False] and the error text; a failure to
    write the log changes nothing in the response, whose [found] may
    then be [True]. *)
Theorem query_always_returns question (w : World R) :
  (exists response w', query question w = (Return response, w'))
  /\ (forall e r1,
        genai_list_files (remote w) = (inl e, r1) ->
        exists w',
          query question w =
            (Return (no_documents_response question (isoformat_now (clock w))),
             w'))
  /\ (forall w1 n ns f fs e r2,
        get_all_document_names w = (Return (n :: ns), w1) ->
        ready_files (fst (lookups (n :: ns) (remote w1))) = f :: fs ->
        generate_content (context_prompt question) (f :: fs)
          (snd (lookups (n :: ns) (remote w1))) = (inl e, r2) ->
        exists response w',
          query question w = (Return response, w')
          /\ Response.found response = false
          /\ Response.sources response = []
          /\ Response.answer response =
               `"Error processing query: " ++ e ++ nl ++ nl ++
               `"Please check the console for details.")
  /\ (forall content fault,
        fst (query question (with_log w content fault))
        = fst (query question w)).
Proof.
  assert (Ret : forall v : World R,
             exists response, fst (query question v) = Return response
               /\ forall content fault,
                    fst (query question (with_log v content fault))
                    = Return response).
  { intros v.
    destruct (get_all_document_names v) as [o v1] eqn:E.
    pose proof E as E'. rewrite get_all_document_names_run in E'.
    inversion E' as [[E1 E2]]. clear E'.
    assert (L : forall content fault,
               get_all_document_names (with_log v content fault)
               = (o, with_log v1 content fault)).
    { intros content fault. rewrite get_all_document_names_run.
      cbn [remote with_log]. rewrite E1. subst v1. reflexivity. }
    rewrite <- E1 in E, L.
    destruct (match fst (genai_list_files (remote v)) with
              | inr files => map name files
              | inl _ => []
              end) as [| n ns].
    - eexists. split.
      + erewrite query_no_documents by exact E. reflexivity.
      + intros content fault.
        erewrite query_no_documents by exact (L content fault).
        subst v1. reflexivity.
    - destruct (query_with_files_frame question (n :: ns) (remote v1))
        as (result & r' & cs & ds & Q).
      eexists. split.
      + erewrite query_with_documents; [| exact E | exact (Q v1 eq_refl)].
        reflexivity.
      + intros content fault.
        erewrite query_with_documents;
          [| exact (L content fault)
           | apply Q; subst v1; reflexivity ].
        subst v1. reflexivity. }
  split; [| split; [| split]].
  - destruct (Ret w) as [response [Q _]].
    destruct (query question w) as [o w']. simpl in Q. subst o. now eexists _, _.
  - intros e r1 E. eexists.
    erewrite query_no_documents
      by (rewrite get_all_document_names_run, E; reflexivity).
    reflexivity.
  - intros w1 n ns f fs e r2 E Rdy Gen.
    pose proof (query_with_files_generation_failed _ _ _ Rdy Gen) as Q.
    eexists _, _. split; [eapply query_with_documents; [exact E | exact Q] |].
    repeat split.
  - intros content fault. destruct (Ret w) as [response [Q1 Q2]].
    now rewrite Q1, Q2.
Qed.

End QueryClaims.

(** ** Substrings and lower-casing *)

Section StringFacts.

Lemma startswith_app p s : startswith p (p ++ s) = true.
Proof.
  induction p as [| c p IH]; simpl; [reflexivity |].
  now rewrite N.eqb_refl, IH.
Qed.

Lemma contains_startswith sub s :
  startswith sub s = true -> contains sub s = true.
Proof. intros E. destruct s; simpl; now rewrite E. Qed.

Lemma contains_app sub a b : contains sub (a ++ sub ++ b) = true.
Proof.
  induction a as [| c a IH].
  - cbn [app]. apply contains_startswith. apply startswith_app.
  - cbn [app contains]. rewrite IH. apply orb_true_r.
Qed.

Lemma startswith_prefix p s :
  startswith p s = true -> exists t, s = p ++ t.
Proof.
  revert s. induction p as [| c p IH]; intros s E.
  - now exists s.
  - destruct s as [| d s]; [discriminate |]. simpl in E.
    apply andb_prop in E. destruct E as [E1 E2].
    apply N.eqb_eq in E1. subst d.
    destruct (IH s E2) as [t ->]. now exists t.
Qed.

Lemma contains_split sub s :
  contains sub s = true -> exists a b, s = a ++ sub ++ b.
Proof.
  induction s as [| c s IH]; intros E.
  - simpl in E. rewrite orb_false_r in E.
    apply startswith_prefix in E. destruct E as [t E]. now exists [], t.
  - cbn [contains] in E. apply orb_prop in E. destruct E as [E | E].
    + apply startswith_prefix in E. destruct E as [t E]. now exists [], t.
    + destruct (IH E) as (a & b & ->). now exists (c :: a), b.
Qed.

(** A text of ASCII characters none of which is a capital letter. *)
Definition plain (s : str) : bool :=
  forallb (fun c => (c <? 128)%N && negb ((65 <=? c) && (c <=? 90))%N) s.

Context {H : Host}.

Lemma lower_from_plain p : forall before rest,
  plain p = true ->
  lower_from before (p ++ rest) = p ++ lower_from (before ++ p) rest.
Proof.
  induction p as [| c p IH]; intros before rest P.
  - now rewrite app_nil_r.
  - cbn [plain forallb] in P. apply andb_prop in P. destruct P as [P1 P2].
    apply andb_prop in P1. destruct P1 as [P1 P3].
    cbn [app lower_from]. rewrite P1. unfold ascii_lower.
    apply negb_true_iff in P3. rewrite P3.
    cbn [app]. rewrite (IH (before ++ [c]) rest P2), <- app_assoc.
    reflexivity.
Qed.

Lemma lower_from_app a : forall before s,
  exists x, lower_from before (a ++ s) = x ++ lower_from (before ++ a) s.
Proof.
  induction a as [| c a IH]; intros before s.
  - exists []. now rewrite app_nil_r.
  - cbn [app lower_from].
    destruct (IH (before ++ [c]) s) as [x E]. rewrite E.
    eexists. rewrite app_assoc, <- (app_assoc before [c] a). reflexivity.
Qed.

(** A plain phrase of the text is still there after lower-casing. *)
Lemma contains_lower phrase a b :
  plain phrase = true -> contains phrase (lower (a ++ phrase ++ b)) = true.
Proof.
  intros P. unfold lower.
  destruct (lower_from_app a [] (phrase ++ b)) as [x E]. rewrite E.
  rewrite lower_from_plain by assumption. apply contains_app.
Qed.

Lemma scan_phrases_existsb phrases answer_lower :
  scan_phrases phrases answer_lower true =
    negb (existsb (fun phrase => contains phrase answer_lower) phrases).
Proof.
  induction phrases as [| p ps IH]; simpl; [reflexivity |].
  destruct (contains p answer_lower); simpl; [reflexivity | exact IH].
Qed.

End StringFacts.

(** ** The claim about the classification *)

Section ClassificationClaims.

Context {H : Host}.

(** C4: [found] as the code computes it is the function the
    specification words: the override for a non-empty attribution list
    and an answer longer than 50 characters, else the absence of every
    refusal phrase from the lower-cased answer.  An answer of 80
    characters with one attribution is found; an answer of 30
    characters that contains "not found in the" is not. *)
Theorem found_flag_is_spec_found :
  (forall answer sources, found_flag answer sources = spec_found answer sources)
  /\ (forall answer source,
        len answer = 80 ->
        (forall phrase, In phrase not_found_phrases ->
                        contains phrase (lower answer) = false) ->
        found_flag answer [source] = true)
  /\ (forall answer sources,
        len answer = 30 ->
        contains `"not found in the" answer = true ->
        found_flag answer sources = false).
Proof.
  split; [| split].
  - intros answer sources. unfold found_flag, spec_found.
    rewrite scan_phrases_existsb.
    destruct sources as [| s sources]; simpl; [reflexivity |].
    now destruct (50 <? len answer).
  - intros answer source L _. unfold found_flag. now rewrite L.
  - intros answer sources L C. unfold found_flag. rewrite L.
    apply contains_split in C. destruct C as (a & b & E).
    assert (S : scan_phrases not_found_phrases (lower answer) true = false).
    { rewrite scan_phrases_existsb. apply negb_false_iff.
      apply existsb_exists. exists `"not found in the". split.
      - simpl. tauto.
      - rewrite E. now apply contains_lower. }
    rewrite S. now destruct sources.
Qed.

End ClassificationClaims.

(** ** The claims about [upload_document] *)

Section UploadClaims.

Context {R : Type} {G : Genai R} {H : Host}.

Lemma eqb_eq (a b : str) : Str.eqb a b = true <-> a = b.
Proof.
  unfold Str.eqb. destruct (list_eq_dec N.eq_dec a b); split;
    congruence.
Qed.

Lemma is_duplicate_listed d (w : World R) files r1 :
  genai_list_files (remote w) = (inr files, r1) ->
  is_duplicate d w =
    (Return (existsb (fun doc => Str.eqb (Doc.display_name doc) d)
                     (map doc_info files)),
     called w r1 [CallListFiles]).
Proof.
  intros E. unfold is_duplicate, catch, bind.
  now rewrite (list_documents_ok _ E).
Qed.

Lemma is_duplicate_unchecked d (w : World R) e r1 :
  genai_list_files (remote w) = (inl e, r1) ->
  is_duplicate d w =
    (Return false,
     printed (called w r1 [CallListFiles])
             (WarnDuplicateCheck
                (`"Failed to list documents: " ++ `"Failed to list files: " ++ e))).
Proof.
  intros E. unfold is_duplicate, catch, bind.
  now rewrite (list_documents_down _ E).
Qed.

(** A handle that is neither processing nor failed is returned as it
    is, whatever the fuel. *)
Lemma upload_file_settled fuel file_path display mime (w : World R) f r2 s :
  genai_upload_file file_path display mime (remote w) = (inr f, r2) ->
  state f = Some s ->
  Str.eqb s `"PROCESSING" = false ->
  Str.eqb s `"FAILED" = false ->
  upload_file fuel file_path display mime w =
    (Return f, called w r2 [CallUploadFile file_path display mime]).
Proof.
  intros E S P F. unfold upload_file, catch, bind, remote_call. rewrite E.
  assert (W : forall v : World R, wait_processed fuel f v = (Return f, v)).
  { intros v. destruct fuel; simpl; unfold bind, state_name;
      rewrite S; unfold ret; now rewrite P. }
  rewrite W. unfold state_name. rewrite S. unfold ret. now rewrite F.
Qed.

(** C5: when the listing contains a document whose display name is,
    code point for code point, the name the upload would be stored
    under, [upload_document] returns the duplicate result
    ([success = False], [duplicate = True]); the only remote call it
    makes is the listing, so no upload is made, and the document count
    of a service whose listing is read-only is what it was. *)
Theorem duplicate_upload_is_refused fuel uploaded_file display_name
    (w : World R) files r1 :
  genai_list_files (remote w) = (inr files, r1) ->
  In (file_display_name uploaded_file display_name)
     (map (fun f => Doc.display_name (doc_info f)) files) ->
  exists result w',
    upload_document fuel uploaded_file display_name w = (Return result, w')
    /\ Upload.success result = false
    /\ Upload.duplicate result = Some true
    /\ calls w' = calls w ++ [CallListFiles]
    /\ remote w' = r1
    /\ ((forall r : R, snd (genai_list_files r) = r) ->
        fst (get_document_count w') = fst (get_document_count w)).
Proof.
  intros E I.
  exists (duplicate_result (file_display_name uploaded_file display_name)),
         (called w r1 [CallListFiles]).
  split.
  - unfold upload_document, catch, bind.
    rewrite (is_duplicate_listed _ _ E).
    assert (D : existsb
                  (fun doc => Str.eqb (Doc.display_name doc)
                                (file_display_name uploaded_file display_name))
                  (map doc_info files) = true).
    { apply existsb_exists. apply in_map_iff in I.
      destruct I as (f & Ef & If). exists (doc_info f). split.
      - now apply in_map.
      - now apply eqb_eq. }
    now rewrite D.
  - repeat split. intros RO.
    rewrite !get_document_count_run. cbn [fst remote called].
    specialize (RO (remote w)). rewrite E in RO. simpl in RO. now subst r1.
Qed.

(** C9: when the listing of the duplicate check raises, the failure is
    only printed as a warning and the upload goes on: if the file can
    be staged, the service accepts it with a settled state and the
    temporary file can be removed, [upload_document] returns
    [success = True], having called the remote upload. *)
Theorem upload_goes_on_when_listing_fails fuel uploaded_file display_name
    (w : World R) e r1 tmp_path mime_type f r2 s :
  genai_list_files (remote w) = (inl e, r1) ->
  stage uploaded_file = inr (tmp_path, mime_type) ->
  genai_upload_file tmp_path
    (Some (file_display_name uploaded_file display_name)) mime_type r1
    = (inr f, r2) ->
  state f = Some s ->
  Str.eqb s `"PROCESSING" = false ->
  Str.eqb s `"FAILED" = false ->
  cleanup uploaded_file tmp_path = None ->
  exists w',
    upload_document fuel uploaded_file display_name w =
      (Return (uploaded_result
                 (file_display_name uploaded_file display_name) f), w')
    /\ Upload.success
         (uploaded_result (file_display_name uploaded_file display_name) f)
       = true
    /\ calls w' =
         calls w ++
         [CallListFiles;
          CallUploadFile tmp_path
            (Some (file_display_name uploaded_file display_name)) mime_type]
    /\ console w' =
         console w ++
         [WarnDuplicateCheck
            (`"Failed to list documents: " ++ `"Failed to list files: " ++ e)].
Proof.
  intros E St Up S P F Cl. eexists. split; [| split; [reflexivity |]].
  - unfold upload_document, catch, bind.
    rewrite (is_duplicate_unchecked _ _ E), St. unfold host_call, ret, finally, bind.
    erewrite upload_file_settled; [| exact Up | exact S | exact P | exact F].
    rewrite Cl. reflexivity.
  - cbn [calls console called printed]. rewrite <- app_assoc. split; reflexivity.
Qed.

End UploadClaims.

(** ** Counting the query marker *)

Section CountFacts.

Lemma startswith_len p : forall s, startswith p s = true -> len p <= len s.
Proof.
  unfold len.
  induction p as [| c p IH]; intros [| d s] E; simpl in *;
    try lia; try discriminate.
  apply andb_prop in E. destruct E as [_ E]. apply IH in E. lia.
Qed.

(** A character that is not in [sub] ends every attempt to match. *)
Lemma startswith_cut sub c b : ~ In c sub ->
  forall a, startswith sub (a ++ c :: b) = startswith sub a.
Proof.
  intros NI. induction sub as [| d sub IH]; intros a; [reflexivity |].
  assert (NI' : ~ In c sub) by (intros I; apply NI; now right).
  destruct a as [| x a]; simpl.
  - destruct (N.eqb_spec d c) as [-> | _]; [| reflexivity].
    exfalso. apply NI. now left.
  - now rewrite (IH NI').
Qed.

Lemma count_from_cut sub c b : sub <> [] -> ~ In c sub ->
  forall a k, k <= len a ->
    count_from sub (a ++ c :: b) k = count_from sub a k + count_from sub b 0.
Proof.
  intros NE NI. induction a as [| x a IH]; intros k K.
  - simpl in K. assert (k = 0) by lia. subst k. cbn [app count_from].
    change (c :: b) with ([] ++ c :: b). rewrite startswith_cut by assumption.
    destruct sub; [congruence | reflexivity].
  - destruct k as [| k].
    + cbn [app count_from].
      change (x :: a ++ c :: b) with ((x :: a) ++ c :: b).
      rewrite startswith_cut by assumption.
      destruct (startswith sub (x :: a)) eqn:E.
      * apply startswith_len in E. simpl in E.
        rewrite IH by (unfold len in *; lia). reflexivity.
      * apply IH. lia.
    + cbn [app count_from]. apply IH. simpl in K. lia.
Qed.

(** The characters that cannot be part of the marker. *)
Definition cuts (c : char) : bool := negb (existsb (N.eqb c) query_marker).

Lemma cuts_not_in c : cuts c = true -> ~ In c query_marker.
Proof.
  unfold cuts. intros E I. apply negb_true_iff in E.
  assert (T : existsb (N.eqb c) query_marker = true).
  { apply existsb_exists. exists c. split; [assumption | apply N.eqb_refl]. }
  congruence.
Qed.

Lemma marks_cut a c b : cuts c = true ->
  marks (a ++ c :: b) = marks a + marks b.
Proof.
  intros C. unfold marks, count, query_marker. cbn [lit map String.list_ascii_of_string].
  apply count_from_cut; [discriminate | | lia].
  now apply cuts_not_in.
Qed.

Definition ends_cut (s : str) : bool :=
  match rev s with
  | c :: _ => cuts c
  | [] => true
  end.

Definition starts_cut (s : str) : bool :=
  match s with
  | c :: _ => cuts c
  | [] => true
  end.

Lemma marks_nil : marks [] = 0.
Proof. reflexivity. Qed.

Lemma marks_app_starts x y : starts_cut y = true ->
  marks (x ++ y) = marks x + marks y.
Proof.
  destruct y as [| c y]; intros C.
  - now rewrite app_nil_r, marks_nil, Nat.add_0_r.
  - simpl in C. rewrite marks_cut by assumption.
    change (marks (c :: y)) with (marks ([] ++ c :: y)).
    rewrite (@marks_cut [] c y) by assumption.
    now rewrite marks_nil.
Qed.

Lemma marks_app_ends x y : ends_cut x = true ->
  marks (x ++ y) = marks x + marks y.
Proof.
  unfold ends_cut. intros C.
  destruct (rev x) as [| c r] eqn:E.
  - apply (f_equal (@rev char)) in E. rewrite rev_involutive in E. subst x.
    reflexivity.
  - apply (f_equal (@rev char)) in E. rewrite rev_involutive in E. subst x.
    cbn [rev]. rewrite <- app_assoc. cbn [app].
    rewrite !marks_cut by assumption. now rewrite marks_nil, Nat.add_0_r.
Qed.







End CountFacts.

(** ** The claim about the query count *)

Section BlockFacts.






End BlockFacts.

Section CountClaims.

Context {R : Type} {G : Genai R} {H : Host}.

Lemma count_from_none sub s : sub <> [] ->
  (count_from sub s 0 = 0 <-> contains sub s = false).
Proof.
  intros NE. induction s as [| c s IH].
  - destruct sub; [congruence | simpl; tauto].
  - cbn [count_from contains].
    destruct (startswith sub (c :: s)); simpl; [split; discriminate | exact IH].
Qed.

Lemma marks_none s : marks s = 0 <-> mentions s = false.
Proof. apply count_from_none. discriminate. Qed.




(** With a readable log, [get_query_count] is the number of markers
    in its text. *)
Lemma get_query_count_run (w : World R) :
  log_fault w ModeRead = None ->
  get_query_count w = (Return (marks (log_text w)), w).
Proof.
  intros Rd. unfold get_query_count, catch, bind, log_exists, open_log, fread,
    log_text.
  destruct (log_file w) as [content |] eqn:L; [| reflexivity].
  rewrite Rd, L. unfold ret. now rewrite L.
Qed.



End CountClaims.

(** * Concrete runs *)

Section Runs.

Import Mock.

(** C1 at the scenario of the specification: one Active document and
    a generation that answers with the refusal sentence. *)
Lemma refusal_sentence_reported_found_run :
  exists response w',
    query `"What is X?" (active (inr refusal_sentence) (Some header) no_fault)
      = (Return response, w')
    /\ Response.answer response = refusal_sentence
    /\ Response.found response = true
    /\ (log_fault (active (inr refusal_sentence) (Some header) no_fault)
                  ModeAppend = None ->
        exists before,
          log_file w' =
            Some (before ++ `"Status: Found" ++ nl ++ bar 61%N ++ nl ++ nl)).
Proof.
  eapply refusal_sentence_reported_found; vm_compute; reflexivity.
Defined.



(** C3 with an empty remote store. *)
Lemma query_without_documents_run :
  let w := world [] (inr paris) (Some header) no_fault in
  fst (get_all_document_names w) = Return []
  /\ exists ts w',
       query `"What is X?" w =
         (Return {| Response.question := `"What is X?";
                    Response.answer := no_documents_answer;
                    Response.sources := [];
                    Response.found := false;
                    Response.timestamp := ts |}, w')
       /\ calls w' = calls w ++ [CallListFiles]
       /\ forall prompt files,
            In (CallGenerate prompt files) (calls w') ->
            In (CallGenerate prompt files) (calls w).
Proof.
  split; [reflexivity |].
  eapply query_without_documents; vm_compute; reflexivity.
Defined.

(** C6: a handle without a [state] attribute is not in the Active
    state, and yet the generation is called and the answer found. *)
Lemma stateless_document_is_generated :
  let w := world [notes None] (inr paris) (Some header) no_fault in
  let file_names := [`"files/a"] in
  file_names <> []
  /\ forallb (fun x => match x with
                       | inr f => negb (is_active f)
                       | inl _ => true
                       end)
             (fst (lookups file_names (remote w))) = true
  /\ exists result w',
       query_with_files `"What is X?" file_names w = (Return result, w')
       /\ Result.found result = true
       /\ In (CallGenerate (context_prompt `"What is X?") [notes None])
             (calls w').
Proof.
  cbv zeta. split; [discriminate |]. split; [reflexivity |].
  eexists _, _. split; [vm_compute; reflexivity |].
  split; [reflexivity |]. vm_compute. tauto.
Qed.

(** C6 with one document still processing and one that cannot be
    looked up. *)
Lemma no_kept_document_no_generation_run :
  let w := world [notes (Some `"PROCESSING")] (inr paris) (Some header)
                 no_fault in
  let file_names := [`"files/a"; `"files/b"] in
  exists result w',
    query_with_files `"What is X?" file_names w = (Return result, w')
    /\ Result.found result = false
    /\ Result.sources result = []
    /\ Result.answer result =
         `"No active documents available to query." ++ nl ++ nl ++
         `"Failed files: " ++
         join `", " [ `"files/a (state: PROCESSING)";
                      `"files/b (error: 404 file not found)" ]
    /\ forall prompt files,
         In (CallGenerate prompt files) (calls w') ->
         In (CallGenerate prompt files) (calls w).
Proof.
  cbv zeta.
  apply (@no_kept_document_no_generation _ Mock.genai Mock.host);
    [discriminate | reflexivity].
Defined.

(** C10 with the only document lacking its [state]. *)
Lemma stateless_handle_is_queried_run :
  let w := world [notes None] (inr paris) (Some header) no_fault in
  In (notes None) [notes None]
  /\ exists result w',
       query_with_files `"What is X?" [`"files/a"] w = (Return result, w')
       /\ In (CallGenerate (context_prompt `"What is X?") [notes None])
             (calls w')
       /\ forall text r2,
            generate_content (context_prompt `"What is X?") [notes None]
              (remote w) = (inr text, r2) ->
            In (source_of (notes None)) (Result.sources result).
Proof.
  exact (@stateless_handle_is_queried _ Mock.genai Mock.host
           `"What is X?" [`"files/a"]
           (world [notes None] (inr paris) (Some header) no_fault)
           (notes None) (or_introl eq_refl) eq_refl).
Defined.

(** C7: the log cannot be written, and the response is found. *)
Lemma logging_failure_keeps_found :
  let w := active (inr paris) (Some header) read_only in
  exists response w',
    query `"What is X?" w = (Return response, w')
    /\ Response.found response = true
    /\ Response.answer response = paris
    /\ console w' =
         [DebugQuerying 1 [`"files/a"]; DebugResponse paris;
          WarnLogQuery `"Permission denied"]
    /\ log_file w' = log_file w.
Proof. eexists _, _. vm_compute. repeat split. Qed.

(** C7 with an unwritable log, a listing that is down, a generation
    that fails, and the same query with and without a log fault. *)
Lemma query_always_returns_run :
  (exists response w',
     query `"What is X?" (active (inr paris) (Some header) read_only)
     = (Return response, w'))
  /\ (exists w',
        query `"What is X?"
              (world_down [] (inr paris) None no_fault `"503 unavailable")
        = (Return (no_documents_response `"What is X?" `"2025-01-01T00:00:10"),
           w'))
  /\ (exists response w',
        query `"What is X?" (active (inl `"quota exceeded") None no_fault)
        = (Return response, w')
        /\ Response.found response = false
        /\ Response.sources response = []
        /\ Response.answer response =
             `"Error processing query: " ++ `"quota exceeded" ++ nl ++ nl ++
             `"Please check the console for details.")
  /\ fst (query `"What is X?"
                (with_log (active (inr paris) (Some header) no_fault)
                          None read_only))
     = fst (query `"What is X?" (active (inr paris) (Some header) no_fault)).
Proof.
  split; [| split; [| split]].
  - exact (proj1 (@query_always_returns _ Mock.genai Mock.host `"What is X?"
                    (active (inr paris) (Some header) read_only))).
  - destruct (proj1 (proj2 (@query_always_returns _ Mock.genai Mock.host `"What is X?"
                (world_down [] (inr paris) None no_fault `"503 unavailable")))
                `"503 unavailable"
                {| stored := []; reply := inr paris;
                   listing_down := Some `"503 unavailable" |} eq_refl)
      as [w' E].
    exists w'. rewrite E. reflexivity.
  - eapply (proj1 (proj2 (proj2 (@query_always_returns _ Mock.genai Mock.host `"What is X?"
              (active (inl `"quota exceeded") None no_fault)))));
      vm_compute; reflexivity.
  - exact (proj2 (proj2 (proj2 (@query_always_returns _ Mock.genai Mock.host `"What is X?"
              (active (inr paris) (Some header) no_fault)))) None read_only).
Defined.

(** C4 on an answer of 80 and an answer of 30 characters. *)
Lemma found_flag_is_spec_found_run :
  found_flag answer80 [a_source] = spec_found answer80 [a_source]
  /\ (len answer80 = 80 /\ found_flag answer80 [a_source] = true)
  /\ (len answer30 = 30 /\ found_flag answer30 [a_source] = false).
Proof.
  destruct (@found_flag_is_spec_found Mock.host) as (A & B & C).
  split; [apply A |]. split.
  - split; [reflexivity |]. apply B; [reflexivity |].
    intros phrase I. simpl in I.
    repeat (destruct I as [<- | I]; [vm_compute; reflexivity |]).
    contradiction.
  - split; [reflexivity |].
    apply (C answer30 [a_source]); reflexivity.
Defined.

(** C5: [notes.txt] is uploaded where a [notes.txt] is stored. *)
Lemma duplicate_upload_is_refused_run :
  let w := active (inr paris) (Some header) no_fault in
  In `"notes.txt"
     (map (fun f => Doc.display_name (doc_info f)) (stored (remote w)))
  /\ exists result w',
       upload_document 3 (FilePath `"/home/me/notes.txt") None w
         = (Return result, w')
       /\ Upload.success result = false
       /\ Upload.duplicate result = Some true
       /\ calls w' = calls w ++ [CallListFiles]
       /\ remote w' = remote w
       /\ ((forall r, snd (genai_list_files r) = r) ->
           fst (get_document_count w') = fst (get_document_count w)).
Proof.
  split; [vm_compute; tauto |].
  eapply (@duplicate_upload_is_refused _ Mock.genai Mock.host);
    [reflexivity | vm_compute; tauto].
Defined.

(** The match is on code points: [Notes.txt] is no duplicate of
    [notes.txt], and is uploaded. *)
Example capitalised_name_is_uploaded :
  let w := active (inr paris) (Some header) no_fault in
  exists result w',
    upload_document 3 (FilePath `"/home/me/Notes.txt") None w
      = (Return result, w')
    /\ Upload.success result = true
    /\ calls w' =
         [CallListFiles;
          CallUploadFile `"/home/me/Notes.txt" (Some `"Notes.txt") None].
Proof. eexists _, _. vm_compute. repeat split. Qed.

(** C9: the listing is down, a [notes.txt] is stored, and a second one
    is uploaded. *)
Lemma upload_goes_on_when_listing_fails_run :
  let w := world_down [notes (Some `"ACTIVE")] (inr paris) (Some header)
                      no_fault `"503 unavailable" in
  exists result w',
    upload_document 0 (Streamlit `"notes.txt" [] (Some `"text/plain")) None w
      = (Return result, w')
    /\ Upload.success result = true
    /\ Upload.display_name result = Some `"notes.txt"
    /\ calls w' =
         [CallListFiles;
          CallUploadFile `"/tmp/tmp0.txt" (Some `"notes.txt")
                         (Some `"text/plain")]
    /\ List.length (stored (remote w')) = 2.
Proof.
  cbv zeta.
  edestruct (@upload_goes_on_when_listing_fails _ Mock.genai Mock.host 0
               (Streamlit `"notes.txt" [] (Some `"text/plain")) None
               (world_down [notes (Some `"ACTIVE")] (inr paris) (Some header)
                           no_fault `"503 unavailable"))
    as (w' & E & S & C & _); try (vm_compute; reflexivity).
  assert (W : w' = snd (upload_document 0
              (Streamlit `"notes.txt" [] (Some `"text/plain")) None
              (world_down [notes (Some `"ACTIVE")] (inr paris) (Some header)
                          no_fault `"503 unavailable")))
    by (now rewrite E).
  eexists _, w'. split; [exact E |]. split; [exact S |].
  split; [reflexivity |]. split; [exact C |].
  rewrite W. vm_compute. reflexivity.
Defined.



End Runs.

(** * Further properties of the modules *)

(** ** [upload_file] *)

Section UploadFileFacts.

Context {R : Type} {G : Genai R} {H : Host}.

(** The handle is settled: it has a state, which is neither PROCESSING
    nor FAILED. *)
Definition settled (f : File) : Prop :=
  exists s, state f = Some s
            /\ Str.eqb s `"PROCESSING" = false
            /\ Str.eqb s `"FAILED" = false.

(** What the polling loop does to the world, and what it can return. *)
Lemma wait_processed_run fuel : forall f (w w' : World R) o,
  wait_processed fuel f w = (o, w') ->
  (exists names,
      w' = called w (remote w') (map CallGetFile names)
      /\ List.length names <= fuel)
  /\ (forall f', o = Return f' ->
        exists s, state f' = Some s /\ Str.eqb s `"PROCESSING" = false).
Proof.
  induction fuel as [| fuel IH]; intros f w w' o E.
  - simpl in E. unfold bind, state_name in E.
    destruct (state f) as [s |] eqn:S; unfold ret, raise in E.
    + destruct (Str.eqb s `"PROCESSING") eqn:P; inversion E; subst.
      * split; [exists []; cbn [map List.length]; rewrite called_nil; split; [reflexivity | lia] |]. discriminate.
      * split; [exists []; cbn [map List.length]; rewrite called_nil; split; [reflexivity | lia] |].
        intros f' F. inversion F; subst. now exists s.
    + inversion E; subst.
      split; [exists []; cbn [map List.length]; rewrite called_nil; split; [reflexivity | lia] |]. discriminate.
  - simpl in E. unfold bind at 1, state_name in E.
    destruct (state f) as [s |] eqn:S; unfold ret, raise in E.
    + destruct (Str.eqb s `"PROCESSING") eqn:P.
      * unfold bind, remote_call in E.
        destruct (genai_get_file (name f) (remote w)) as [[e | f1] r1].
        -- inversion E; subst. split; [| discriminate].
           exists [name f]. split; [reflexivity | simpl; lia].
        -- apply IH in E. destruct E as [(names & W & L) F].
           split; [| exact F].
           exists (name f :: names). split; [| simpl; lia].
           rewrite W. cbn [remote called map]. unfold called. cbn.
           now rewrite <- app_assoc.
      * inversion E; subst.
        split; [exists []; cbn [map List.length]; rewrite called_nil; split; [reflexivity | lia] |].
        intros f' F. inversion F; subst. now exists s.
    + inversion E; subst.
      split; [exists []; cbn [map List.length]; rewrite called_nil; split; [reflexivity | lia] |]. discriminate.
Qed.

(** [upload_file], outcome by outcome. *)
Lemma upload_file_run fuel file_path display mime (w w' : World R) o :
  upload_file fuel file_path display mime w = (o, w') ->
  (exists names,
      w' = called w (remote w')
             (CallUploadFile file_path display mime :: map CallGetFile names)
      /\ List.length names <= fuel)
  /\ (forall f, o = Return f -> settled f)
  /\ (forall e, o = Raise e -> exists e', e = `"Failed to upload file: " ++ e').
Proof.
  unfold upload_file, catch, bind at 1, remote_call. intros E.
  destruct (genai_upload_file file_path display mime (remote w))
    as [[e | f0] r0].
  - unfold raise in E. inversion E; subst.
    split; [exists []; split; [reflexivity | simpl; lia] |].
    split; [discriminate |]. intros e0 X. inversion X. now exists e.
  - unfold bind at 1 in E.
    destruct (wait_processed fuel f0
                (called w r0 [CallUploadFile file_path display mime]))
      as [o1 w1] eqn:W.
    apply wait_processed_run in W. destruct W as [(names & W1 & L) F1].
    assert (C : forall v : World R, remote v = remote w1 ->
                  calls v = calls w1 -> log_file v = log_file w1 ->
                  log_fault v = log_fault w1 -> console v = console w1 ->
                  clock v = clock w1 ->
                  v = called w (remote v)
                        (CallUploadFile file_path display mime
                         :: map CallGetFile names)).
    { intros v E1 E2 E3 E4 E5 E6. destruct v. cbn in *. subst.
      rewrite W1. unfold called. cbn. now rewrite <- app_assoc. }
    destruct o1 as [f1 | e1 |].
    + unfold bind, state_name in E.
      destruct (F1 f1 eq_refl) as (s & S & P). rewrite S in E. unfold ret in E.
      destruct (Str.eqb s `"FAILED") eqn:Fl; unfold raise in E;
        inversion E; subst.
      * split; [exists names; split; [now apply C | exact L] |].
        split; [discriminate |]. intros e0 X. inversion X. now eexists.
      * split; [exists names; split; [now apply C | exact L] |].
        split; [| discriminate].
        intros f X. inversion X; subst. now exists s.
    + unfold raise in E. inversion E; subst.
      split; [exists names; split; [now apply C | exact L] |].
      split; [discriminate |]. intros e0 X. inversion X. now exists e1.
    + inversion E; subst.
      split; [exists names; split; [now apply C | exact L] |].
      split; discriminate.
Qed.

(** X1: a handle that [upload_file] returns is settled: it has a state,
    and the state is neither PROCESSING nor FAILED. *)
Theorem upload_file_returns_settled fuel file_path display mime
    (w w' : World R) f :
  upload_file fuel file_path display mime w = (Return f, w') ->
  exists s, state f = Some s
            /\ Str.eqb s `"PROCESSING" = false
            /\ Str.eqb s `"FAILED" = false.
Proof.
  intros E. apply upload_file_run in E. destruct E as (_ & F & _).
  now apply F.
Qed.

(** X2: every exception of [upload_file] carries the prefix
    [Failed to upload file: ]; a handle that comes back FAILED raises
    with the processing message and the name of the handle, and a
    handle without a state raises too. *)
Theorem upload_file_failures fuel file_path display mime (w : World R) :
  (forall e w', upload_file fuel file_path display mime w = (Raise e, w') ->
     exists e', e = `"Failed to upload file: " ++ e')
  /\ (forall f r1,
        genai_upload_file file_path display mime (remote w) = (inr f, r1) ->
        state f = Some `"FAILED" ->
        upload_file fuel file_path display mime w =
          (Raise (`"Failed to upload file: " ++ `"File processing failed: "
                  ++ name f),
           called w r1 [CallUploadFile file_path display mime]))
  /\ (forall f r1,
        genai_upload_file file_path display mime (remote w) = (inr f, r1) ->
        state f = None ->
        upload_file fuel file_path display mime w =
          (Raise (`"Failed to upload file: " ++ attribute_error f),
           called w r1 [CallUploadFile file_path display mime])).
Proof.
  split; [| split].
  - intros e w' E. apply upload_file_run in E. destruct E as (_ & _ & X).
    now apply X.
  - intros f r1 E S.
    assert (W : forall v : World R, wait_processed fuel f v = (Return f, v)).
    { intros v. destruct fuel; cbn [wait_processed]; unfold bind, state_name;
        rewrite S; reflexivity. }
    unfold upload_file, catch, bind, remote_call. rewrite E, W.
    unfold state_name. rewrite S. reflexivity.
  - intros f r1 E S.
    assert (W : forall v : World R,
               wait_processed fuel f v = (Raise (attribute_error f), v)).
    { intros v. destruct fuel; cbn [wait_processed]; unfold bind, state_name;
        rewrite S; reflexivity. }
    unfold upload_file, catch, bind, remote_call. rewrite E, W.
    reflexivity.
Qed.

(** X3: whatever its outcome, [upload_file] calls the remote upload once
    and then only polls with [get_file], at most [fuel] times; it writes
    neither the log nor the console. *)
Theorem upload_file_calls fuel file_path display mime (w w' : World R) o :
  upload_file fuel file_path display mime w = (o, w') ->
  exists names,
    calls w' = calls w ++ CallUploadFile file_path display mime
                          :: map CallGetFile names
    /\ List.length names <= fuel
    /\ log_file w' = log_file w
    /\ console w' = console w.
Proof.
  intros E. apply upload_file_run in E. destruct E as ((names & W & L) & _).
  exists names. rewrite W. cbn. repeat split. exact L.
Qed.


End UploadFileFacts.

(** ** [query_with_files] *)

Section QueryWithFilesMore.

Context {R : Type} {G : Genai R} {H : Host}.

Lemma ready_failed_length file_names : forall results : list (exn + File),
  List.length results = List.length file_names ->
  List.length (ready_files results)
  + List.length (failed_reasons file_names results)
  = List.length file_names.
Proof.
  induction file_names as [| n ns IH]; intros [| x xs] L;
    simpl in *; try reflexivity; try discriminate.
  assert (L' : List.length xs = List.length ns) by lia.
  specialize (IH xs L'). unfold kept.
  destruct x as [e | f]; simpl; [lia |].
  destruct (state f) as [s |]; [destruct (Str.eqb s `"ACTIVE") |];
    simpl; lia.
Qed.

(** The three ways [query_with_files] ends. *)
Lemma query_with_files_cases query file_names (w : World R) :
  (ready_files (fst (lookups file_names (remote w))) = []
   /\ query_with_files query file_names w =
        (Return
           {| Result.answer :=
                no_active_answer
                  (failed_reasons file_names
                                  (fst (lookups file_names (remote w))));
              Result.sources := [];
              Result.found := false;
              Result.debug_info :=
                DebugFiles (List.length file_names) 0
                  (failed_reasons file_names
                                  (fst (lookups file_names (remote w)))) |},
         after_lookups w file_names))
  \/ (exists f fs text r2,
        ready_files (fst (lookups file_names (remote w))) = f :: fs
        /\ query_with_files query file_names w =
             (Return
                {| Result.answer := answer_text text;
                   Result.sources := map source_of (f :: fs);
                   Result.found :=
                     found_flag (answer_text text) (map source_of (f :: fs));
                   Result.debug_info :=
                     DebugFiles (List.length file_names)
                       (List.length (f :: fs))
                       (failed_reasons file_names
                          (fst (lookups file_names (remote w)))) |},
              printed
                (called
                   (printed (after_lookups w file_names)
                      (DebugQuerying (List.length (f :: fs))
                                     (map name (f :: fs))))
                   r2 [CallGenerate (context_prompt query) (f :: fs)])
                (DebugResponse (take 200 (answer_text text)))))
  \/ (exists f fs e r2,
        ready_files (fst (lookups file_names (remote w))) = f :: fs
        /\ query_with_files query file_names w =
             (Return
                {| Result.answer :=
                     `"Error processing query: " ++ e ++ nl ++ nl ++
                     `"Please check the console for details.";
                   Result.sources := [];
                   Result.found := false;
                   Result.debug_info := DebugError e |},
              printed
                (called
                   (printed (after_lookups w file_names)
                      (DebugQuerying (List.length (f :: fs))
                                     (map name (f :: fs))))
                   r2 [CallGenerate (context_prompt query) (f :: fs)])
                (ErrQueryWithFiles e))).
Proof.
  destruct (ready_files (fst (lookups file_names (remote w))))
    as [| f fs] eqn:E.
  - left. split; [reflexivity |]. now apply query_with_files_no_ready.
  - destruct (generate_content (context_prompt query) (f :: fs)
                (snd (lookups file_names (remote w))))
      as [[e | text] r2] eqn:Gen.
    + right. right. exists f, fs, e, r2. split; [reflexivity |].
      now apply query_with_files_generation_failed.
    + right. left. exists f, fs, text, r2. split; [reflexivity |].
      now apply query_with_files_generated.
Qed.

(** X5: the counts that [query_with_files] reports add up: the total is
    the number of requested names, every name is either kept or listed
    as failed, and there is one source per kept document. *)
Theorem query_with_files_counts query file_names (w w' : World R) result
    total active failed_files :
  query_with_files query file_names w = (Return result, w') ->
  Result.debug_info result = DebugFiles total active failed_files ->
  total = List.length file_names
  /\ active + List.length failed_files = total
  /\ List.length (Result.sources result) = active.
Proof.
  intros Q D.
  pose proof (ready_failed_length file_names
                (fst (lookups file_names (remote w)))
                (lookups_length file_names (remote w))) as P.
  destruct (query_with_files_cases query file_names w)
    as [[E Q'] | [(f & fs & text & r2 & E & Q') | (f & fs & e & r2 & E & Q')]];
    rewrite Q' in Q; inversion Q; subst; cbn in D; inversion D; subst.
  - rewrite E in P. simpl in *. repeat split. lia.
  - rewrite E in P. simpl in *. rewrite ?length_map. repeat split. lia.
Qed.

(** The remote calls of [query_with_files]. *)
Lemma query_with_files_trace query file_names (w : World R) :
  exists result w',
    query_with_files query file_names w = (Return result, w')
    /\ calls w' =
         calls w ++ map CallGetFile file_names
         ++ match ready_files (fst (lookups file_names (remote w))) with
            | [] => []
            | f :: fs => [CallGenerate (context_prompt query) (f :: fs)]
            end
    /\ log_file w' = log_file w.
Proof.
  destruct (query_with_files_cases query file_names w)
    as [[E Q'] | [(f & fs & text & r2 & E & Q') | (f & fs & e & r2 & E & Q')]];
    rewrite Q', E; eexists _, _; (split; [reflexivity |]);
    unfold after_lookups; cbn [calls log_file printed called];
    rewrite <- ?app_assoc, ?app_nil_r; split; reflexivity.
Qed.

(** X6: [query_with_files] looks every requested name up once, in
    order, and then calls the generation once if a document was kept
    and not at all otherwise; it makes no other remote call and leaves
    the log alone. *)
Theorem query_with_files_calls query file_names (w : World R) :
  exists result w',
    query_with_files query file_names w = (Return result, w')
    /\ calls w' =
         calls w ++ map CallGetFile file_names
         ++ match ready_files (fst (lookups file_names (remote w))) with
            | [] => []
            | f :: fs => [CallGenerate (context_prompt query) (f :: fs)]
            end
    /\ log_file w' = log_file w.
Proof. apply query_with_files_trace. Qed.

(** What every result of [query_with_files] satisfies. *)
Lemma query_with_files_sound query file_names (w w' : World R) result :
  query_with_files query file_names w = (Return result, w') ->
  Result.answer result <> []
  /\ (Result.found result = true -> Result.sources result <> []).
Proof.
  intros Q.
  destruct (query_with_files_cases query file_names w)
    as [[E Q'] | [(f & fs & text & r2 & E & Q') | (f & fs & e & r2 & E & Q')]];
    rewrite Q' in Q; inversion Q; subst; cbn [Result.answer Result.found
      Result.sources]; split; try discriminate.
  - unfold no_active_answer. now destruct (failed_reasons _ _).
  - now destruct text.
Qed.

(** X7: the answer of [query_with_files] is never the empty string, and
    a result with [found = True] has at least one source. *)
Theorem query_with_files_answer query file_names (w w' : World R) result :
  query_with_files query file_names w = (Return result, w') ->
  Result.answer result <> []
  /\ (Result.found result = true -> Result.sources result <> []).
Proof. apply query_with_files_sound. Qed.

(** X8: when the result carries sources, they are the attributions of
    the documents passed to the one generation call, in the same order,
    each with the display name (or, without one, the name) of its
    document and without excerpt. *)
Theorem query_with_files_sources query file_names (w w' : World R) result :
  query_with_files query file_names w = (Return result, w') ->
  Result.sources result <> [] ->
  exists files,
    files = ready_files (fst (lookups file_names (remote w)))
    /\ calls w' = calls w ++ map CallGetFile file_names
                  ++ [CallGenerate (context_prompt query) files]
    /\ map Source.file_name (Result.sources result)
       = map (fun f => Some (name f)) files
    /\ map Source.document (Result.sources result)
       = map (fun f => Some (match display_name f with
                             | Some d => d
                             | None => name f
                             end)) files
    /\ Forall (fun s => Source.chunk s = None) (Result.sources result).
Proof.
  intros Q NE.
  destruct (query_with_files_cases query file_names w)
    as [[E Q'] | [(f & fs & text & r2 & E & Q') | (f & fs & e & r2 & E & Q')]];
    rewrite Q' in Q; injection Q as <- <-; cbn [Result.sources] in *;
    try congruence.
  exists (f :: fs). split; [now rewrite E |].
  unfold after_lookups. cbn [calls printed called].
  change (source_of f :: map source_of fs) with (map source_of (f :: fs)).
  rewrite <- app_assoc, !map_map. repeat split.
  apply Forall_forall. intros s I. apply in_map_iff in I.
  destruct I as (g & <- & _). reflexivity.
Qed.

End QueryWithFilesMore.

(** ** The document registry *)

Section RegistryMore.

Context {R : Type} {G : Genai R} {A : GenaiAdmin R} {H : Host}.

(** The result of the outer [except] of [upload_document]. *)
Definition upload_failure (e : exn) : Upload.t :=
  {| Upload.success := false;
     Upload.message := `"Failed to upload document: " ++ e;
     Upload.document_name := None;
     Upload.duplicate := None;
     Upload.display_name := None |}.

(** The duplicate check always returns, after one listing call. *)
Lemma is_duplicate_run d (w : World R) :
  exists dup w1,
    is_duplicate d w = (Return dup, w1)
    /\ calls w1 = calls w ++ [CallListFiles]
    /\ log_file w1 = log_file w.
Proof.
  destruct (genai_list_files (remote w)) as [[e | files] r1] eqn:E.
  - rewrite (is_duplicate_unchecked _ _ E). now eexists _, _.
  - rewrite (is_duplicate_listed _ _ E). now eexists _, _.
Qed.

(** [upload_document] after its duplicate check. *)
Lemma upload_document_run fuel uploaded_file display_name (w w1 : World R) dup :
  is_duplicate (file_display_name uploaded_file display_name) w
    = (Return dup, w1) ->
  upload_document fuel uploaded_file display_name w =
    if dup
    then (Return (duplicate_result
                    (file_display_name uploaded_file display_name)), w1)
    else
      match stage uploaded_file with
      | inl e => (Return (upload_failure e), w1)
      | inr (tmp_path, mime_type) =>
          match upload_file fuel tmp_path
                  (Some (file_display_name uploaded_file display_name))
                  mime_type w1 with
          | (Return f, w2) =>
              match cleanup uploaded_file tmp_path with
              | None =>
                  (Return (uploaded_result
                             (file_display_name uploaded_file display_name) f),
                   w2)
              | Some e => (Return (upload_failure e), w2)
              end
          | (Raise e, w2) =>
              match cleanup uploaded_file tmp_path with
              | None => (Return (upload_failure e), w2)
              | Some e' => (Return (upload_failure e'), w2)
              end
          | (Diverge, w2) => (Diverge, w2)
          end
      end.
Proof.
  intros D. unfold upload_document, catch, bind at 1. rewrite D.
  destruct dup; [reflexivity |].
  unfold bind at 1, host_call.
  destruct (stage uploaded_file) as [e | [tmp_path mime_type]];
    [reflexivity |].
  unfold ret at 1, finally, bind.
  destruct (upload_file fuel tmp_path
              (Some (file_display_name uploaded_file display_name))
              mime_type w1) as [[f | e |] w2];
    try reflexivity;
    destruct (cleanup uploaded_file tmp_path); reflexivity.
Qed.

(** X9: [get_document_count] and [get_all_document_names] never raise
    and agree: the count is the number of names; when the listing fails
    they report 0 documents and no name, as for an empty store. *)
Theorem count_and_names_agree (w : World R) :
  exists n file_names w1 w2,
    get_document_count w = (Return n, w1)
    /\ get_all_document_names w = (Return file_names, w2)
    /\ n = List.length file_names
    /\ (forall e r1, genai_list_files (remote w) = (inl e, r1) ->
          n = 0 /\ file_names = []).
Proof.
  rewrite get_document_count_run, get_all_document_names_run.
  eexists _, _, _, _. split; [reflexivity |]. split; [reflexivity |].
  destruct (genai_list_files (remote w)) as [[e | files] r1]; cbn [fst].
  - split; [reflexivity |]. now intros.
  - split; [now rewrite length_map |]. intros e r2 D. discriminate.
Qed.

(** No exception leaves [upload_document], and its failures have one
    of two shapes. *)
Lemma upload_document_outcome fuel uploaded_file display_name
    (w w' : World R) o :
  upload_document fuel uploaded_file display_name w = (o, w') ->
  (forall e, o <> Raise e)
  /\ (forall result,
        o = Return result ->
        Upload.success result = false ->
        Upload.document_name result = None
        /\ (result = duplicate_result
                       (file_display_name uploaded_file display_name)
            \/ (Upload.duplicate result = None
                /\ exists e, Upload.message result =
                               `"Failed to upload document: " ++ e))).
Proof.
  destruct (is_duplicate_run (file_display_name uploaded_file display_name) w)
    as (dup & w1 & D & _).
  rewrite (upload_document_run fuel _ _ _ D).
  destruct dup.
  - intros E. injection E as <- <-. split; [discriminate |].
    intros result X _. injection X as <-. split; [reflexivity | now left].
  - destruct (stage uploaded_file) as [e | [tmp_path mime_type]].
    + intros E. injection E as <- <-. split; [discriminate |].
      intros result X _. injection X as <-.
      split; [reflexivity |]. right. split; [reflexivity | now exists e].
    + destruct (upload_file fuel tmp_path _ mime_type w1) as [[f | e |] w2];
        [destruct (cleanup uploaded_file tmp_path) as [e' |]
        | destruct (cleanup uploaded_file tmp_path) as [e' |] |];
        intros E; injection E as <- <-; (split; [discriminate |]);
        intros result X S; try discriminate; injection X as <-;
        try discriminate;
        (split; [reflexivity |]); right; (split; [reflexivity |]);
        now eexists.
Qed.

(** X10: [upload_document] never raises.  A result with
    [success = False] has no document name and is either the duplicate
    result or carries a message that starts with
    [Failed to upload document: ]. *)
Theorem upload_document_failures fuel uploaded_file display_name
    (w w' : World R) o :
  upload_document fuel uploaded_file display_name w = (o, w') ->
  (forall e, o <> Raise e)
  /\ (forall result,
        o = Return result ->
        Upload.success result = false ->
        Upload.document_name result = None
        /\ (result = duplicate_result
                       (file_display_name uploaded_file display_name)
            \/ (Upload.duplicate result = None
                /\ exists e, Upload.message result =
                               `"Failed to upload document: " ++ e))).
Proof. apply upload_document_outcome. Qed.

(** X11: a result with [success = True] comes from a settled handle of
    a remote upload made under the display name of the result, after
    the duplicate listing and followed only by polls. *)
Theorem upload_success_means_uploaded fuel uploaded_file display_name
    (w w' : World R) result :
  upload_document fuel uploaded_file display_name w = (Return result, w') ->
  Upload.success result = true ->
  exists f tmp_path mime_type names,
    result = uploaded_result (file_display_name uploaded_file display_name) f
    /\ settled f
    /\ stage uploaded_file = inr (tmp_path, mime_type)
    /\ calls w' =
         calls w ++
         CallListFiles
         :: CallUploadFile tmp_path
              (Some (file_display_name uploaded_file display_name)) mime_type
         :: map CallGetFile names
    /\ List.length names <= fuel.
Proof.
  destruct (is_duplicate_run (file_display_name uploaded_file display_name) w)
    as (dup & w1 & D & C1 & _).
  rewrite (upload_document_run fuel _ _ _ D).
  destruct dup; [intros E; injection E as <- <-; discriminate |].
  destruct (stage uploaded_file) as [e | [tmp_path mime_type]];
    [intros E; injection E as <- <-; discriminate |].
  destruct (upload_file fuel tmp_path _ mime_type w1) as [[f | e |] w2] eqn:U;
    [destruct (cleanup uploaded_file tmp_path) as [e' |]
    | destruct (cleanup uploaded_file tmp_path) as [e' |] |];
    intros E; try discriminate; injection E as <- <-; intros S;
    try discriminate.
  apply upload_file_run in U. destruct U as ((names & W & L) & F & _).
  exists f, tmp_path, mime_type, names.
  split; [reflexivity |]. split; [now apply F |]. split; [reflexivity |].
  split; [| exact L].
  rewrite W. cbn [calls called]. rewrite C1, <- app_assoc. reflexivity.
Qed.

(** X12: when the temporary file of a Streamlit upload cannot be
    removed, [upload_document] returns [success = False] with the error
    of the removal, although the remote upload was made and settled. *)
Theorem cleanup_failure_hides_upload fuel uploaded_file display_name
    (w : World R) files r1 tmp_path mime_type f r2 s e :
  genai_list_files (remote w) = (inr files, r1) ->
  ~ In (file_display_name uploaded_file display_name)
       (map (fun f => Doc.display_name (doc_info f)) files) ->
  stage uploaded_file = inr (tmp_path, mime_type) ->
  genai_upload_file tmp_path
    (Some (file_display_name uploaded_file display_name)) mime_type r1
    = (inr f, r2) ->
  state f = Some s ->
  Str.eqb s `"PROCESSING" = false ->
  Str.eqb s `"FAILED" = false ->
  cleanup uploaded_file tmp_path = Some e ->
  upload_document fuel uploaded_file display_name w =
    (Return {| Upload.success := false;
               Upload.message := `"Failed to upload document: " ++ e;
               Upload.document_name := None;
               Upload.duplicate := None;
               Upload.display_name := None |},
     called w r2
       [CallListFiles;
        CallUploadFile tmp_path
          (Some (file_display_name uploaded_file display_name)) mime_type]).
Proof.
  intros E NI St Up S P F Cl.
  assert (D : is_duplicate (file_display_name uploaded_file display_name) w
              = (Return false, called w r1 [CallListFiles])).
  { rewrite (is_duplicate_listed _ _ E). f_equal. f_equal.
    destruct (existsb _ _) eqn:X; [| reflexivity].
    exfalso. apply NI. apply existsb_exists in X.
    destruct X as (doc & I & Q). apply eqb_eq in Q.
    apply in_map_iff in I. destruct I as (g & <- & I).
    apply in_map_iff. now exists g. }
  rewrite (upload_document_run fuel _ _ _ D), St.
  erewrite upload_file_settled; [| exact Up | exact S | exact P | exact F].
  rewrite Cl, called_called. reflexivity.
Qed.

(** The loop of the batch upload keeps its counters in step. *)
Lemma upload_each_run fuel uploaded_files : forall results (w w' : World R) o,
  upload_each fuel uploaded_files results w = (o, w') ->
  (forall e, o <> Raise e)
  /\ (forall r, o = Return r ->
        Batch.total r = Batch.total results
        /\ Batch.successful r + Batch.failed r
           = Batch.successful results + Batch.failed results
             + List.length uploaded_files
        /\ Batch.successful r
           + List.length (filter Detail.success (Batch.details results))
           = Batch.successful results
             + List.length (filter Detail.success (Batch.details r))
        /\ map Detail.file (Batch.details r)
           = map Detail.file (Batch.details results)
             ++ map uploaded_name uploaded_files).
Proof.
  induction uploaded_files as [| file rest IH]; intros results w w' o E.
  - cbn in E. injection E as <- <-. split; [discriminate |].
    intros r X. injection X as <-. rewrite app_nil_r. cbn. repeat split; lia.
  - cbn [upload_each] in E. unfold bind in E.
    destruct (upload_document fuel file None w) as [o1 w1] eqn:U.
    apply upload_document_outcome in U. destruct U as [NR _].
    destruct o1 as [result | e |].
    + apply IH in E. destruct E as [NR' X]. split; [exact NR' |].
      intros r Er. specialize (X r Er). destruct X as (T & C & S & D).
      cbn [record_upload Batch.total Batch.successful Batch.failed
           Batch.details] in T, C, S, D.
      rewrite map_app, <- app_assoc in D. cbn [map app] in D.
      rewrite filter_app, length_app in S.
      cbn [filter Detail.success] in S.
      repeat split; try assumption.
      * cbn [List.length]. destruct (Upload.success result); lia.
      * destruct (Upload.success result); cbn [List.length] in S; lia.
    + now destruct (NR e).
    + injection E as <- <-. split; discriminate.
Qed.

(** X13: [batch_upload_documents] never raises, whatever happens to the
    single uploads.  In its result [total] is the number of files, every
    file is counted once as successful or failed, [successful] is the
    number of details with [success = True], and the details name the
    files in the order they were given. *)
Theorem batch_upload_counts fuel uploaded_files (w w' : World R) o :
  batch_upload_documents fuel uploaded_files w = (o, w') ->
  (forall e, o <> Raise e)
  /\ (forall r, o = Return r ->
        Batch.total r = List.length uploaded_files
        /\ Batch.successful r + Batch.failed r = Batch.total r
        /\ Batch.successful r
           = List.length (filter Detail.success (Batch.details r))
        /\ map Detail.file (Batch.details r)
           = map uploaded_name uploaded_files).
Proof.
  intros E. apply upload_each_run in E. destruct E as [NR X].
  split; [exact NR |]. intros r Er. specialize (X r Er).
  cbn in X. destruct X as (T & C & S & D).
  repeat split; try assumption; lia.
Qed.

(** X14: [delete_document] never raises: it returns [success = True]
    exactly when the remote deletion succeeds, and otherwise the error
    under the two prefixes of the registry and of the client. *)
Theorem delete_document_result document_name (w : World R) :
  exists result w',
    delete_document document_name w = (Return result, w')
    /\ remote w' = snd (genai_delete_file document_name (remote w))
    /\ calls w' = calls w
    /\ log_file w' = log_file w
    /\ match fst (genai_delete_file document_name (remote w)) with
       | inr _ =>
           result = {| Deletion.success := true;
                       Deletion.message := `"Document deleted successfully" |}
       | inl e =>
           result = {| Deletion.success := false;
                       Deletion.message :=
                         `"Failed to delete document: " ++
                         `"Failed to delete file: " ++ e |}
       end.
Proof.
  unfold delete_document, delete_file, catch, bind, unrecorded.
  destruct (genai_delete_file document_name (remote w)) as [[e | []] r1];
    eexists _, _; (split; [reflexivity |]); cbn; rewrite app_nil_r;
    repeat split.
Qed.

End RegistryMore.

(** ** The query log *)

Section LogMore.

Context {R : Type} {G : Genai R} {H : Host}.

Ltac cut_marks :=
  repeat first [ rewrite marks_app_ends by reflexivity
               | rewrite marks_app_starts by reflexivity ].

Ltac constant_marks :=
  repeat match goal with
         | |- context [marks ?l] =>
             let v := eval vm_compute in (marks l) in
             match v with
             | 0 => change (marks l) with 0
             end
         end.

(** [get_query_history], in its three cases; it changes nothing. *)
Lemma get_query_history_run (w : World R) :
  get_query_history w =
    (Return match log_file w with
            | None => `"No query history available"
            | Some content =>
                match log_fault w ModeRead with
                | Some e => `"Error reading query history: " ++ e
                | None => content
                end
            end, w).
Proof.
  unfold get_query_history, catch, bind, log_exists, open_log, fread.
  destruct (log_file w) as [content |] eqn:L; [| reflexivity].
  destruct (log_fault w ModeRead) as [e |]; [reflexivity |].
  rewrite L. unfold ret. now rewrite L.
Qed.

(** [clear_history] with a log that can be rewritten. *)
Lemma clear_history_run (w : World R) :
  log_fault w ModeWrite = None ->
  clear_history w =
    (Return true,
     set_log (ticked w)
       (Some (history_header `"Cleared" (isoformat_now (clock w))))).
Proof.
  intros W. unfold clear_history, catch, bind, open_log, now, fwrite.
  rewrite W. destruct (log_file w); reflexivity.
Qed.

Lemma marks_history_header ts :
  marks (history_header `"Cleared" ts) = marks ts.
Proof.
  unfold history_header. cut_marks. constant_marks. lia.
Qed.



(** X16: [clear_history] on a log that can be rewritten returns [True]
    and leaves a file that holds the header with the time of the reset
    and nothing of the old content: [get_query_history] then returns
    that header, and [get_query_count] returns 0 when the time stamp
    does not contain the marker. *)
Theorem cleared_log_is_header (w : World R) :
  log_fault w ModeWrite = None ->
  log_fault w ModeRead = None ->
  fst (clear_history w) = Return true
  /\ fst (get_query_history (snd (clear_history w)))
     = Return (`"# FileRAG Query History" ++ nl
               ++ `"# Cleared: " ++ isoformat_now (clock w) ++ nl
               ++ bar 61%N ++ nl ++ nl)
  /\ (mentions (isoformat_now (clock w)) = false ->
      fst (get_query_count (snd (clear_history w))) = Return 0).
Proof.
  intros W Rd. rewrite (clear_history_run _ W). cbn [fst snd].
  split; [reflexivity |]. split.
  - rewrite get_query_history_run. cbn [fst log_file log_fault set_log ticked].
    rewrite Rd. reflexivity.
  - intros C. rewrite get_query_count_run by exact Rd.
    cbn [fst log_text log_file set_log].
    rewrite marks_history_header. f_equal. now apply marks_none.
Qed.


(** [save_rating], by whether the log can be opened for appending. *)
Lemma save_rating_cases question answer rating note (w : World R) :
  save_rating question answer rating note w =
    match log_fault w ModeAppend with
    | Some e => (Return false, printed w (ErrSaveRating e))
    | None =>
        (Return true,
         set_log (ticked w)
           (Some (log_text w
                  ++ rating_block (isoformat_now (clock w)) question rating
                                  note)))
    end.
Proof.
  unfold save_rating, catch, bind, open_log, now, fwrite, print, log_text.
  destruct (log_fault w ModeAppend) as [e |]; [reflexivity |].
  destruct (log_file w) as [old |] eqn:L; cbn; rewrite ?L; reflexivity.
Qed.



End LogMore.

(** ** [query], from the listing to the log *)

Section QueryMore.

Context {R : Type} {G : Genai R} {H : Host}.

(** The names [query] asks for, and the world after its listing. *)
Definition listed_names (w : World R) : list str :=
  match fst (genai_list_files (remote w)) with
  | inr files => map name files
  | inl _ => []
  end.

Definition after_listing (w : World R) : World R :=
  called w (snd (genai_list_files (remote w))) [CallListFiles].

(** The two ways [query] goes. *)
Lemma query_shape question (w : World R) :
  (listed_names w = []
   /\ query question w =
        (Return (no_documents_response question (isoformat_now (clock w))),
         ticked (after_listing w)))
  \/ (listed_names w <> []
      /\ exists result w2,
           query_with_files question (listed_names w) (after_listing w)
             = (Return result, w2)
           /\ log_file w2 = log_file w
           /\ log_fault w2 = log_fault w
           /\ query question w =
                (Return (response_of question result (isoformat_now (clock w))),
                 snd (_log_query
                        (response_of question result (isoformat_now (clock w)))
                        (ticked w2)))).
Proof.
  pose proof (get_all_document_names_run w) as E.
  fold (listed_names w) in E. fold (after_listing w) in E.
  destruct (listed_names w) as [| n ns] eqn:L.
  - left. split; [reflexivity |].
    erewrite query_no_documents by exact E. reflexivity.
  - right. split; [discriminate |].
    edestruct query_with_documents_run with (question := question)
      as (result & r' & cs & ds & Q1 & Q2); [exact E |].
    exists result, (extended (after_listing w) r' cs ds).
    split; [exact Q1 |]. split; [reflexivity |]. split; [reflexivity |].
    exact Q2.
Qed.

(** X19: the log is only ever appended to by [_log_query],
    [save_rating] and [query]: the text it held before is a prefix of
    the text it holds after, whether or not the write succeeds. *)
Theorem log_is_append_only question answer rating note response
    (w : World R) :
  (exists suffix,
      log_text (snd (_log_query response w)) = log_text w ++ suffix)
  /\ (exists suffix,
        log_text (snd (save_rating question answer rating note w))
        = log_text w ++ suffix)
  /\ (exists suffix,
        log_text (snd (query question w)) = log_text w ++ suffix).
Proof.
  assert (L : forall r (v : World R),
             exists suffix,
               log_text (snd (_log_query r v)) = log_text v ++ suffix).
  { intros r v. rewrite _log_query_run. cbn [snd].
    destruct (log_fault v ModeAppend) as [e |].
    - exists []. now rewrite app_nil_r.
    - eexists. reflexivity. }
  split; [apply L |]. split.
  - rewrite save_rating_cases.
    destruct (log_fault w ModeAppend) as [e |]; cbn [snd].
    + exists []. now rewrite app_nil_r.
    + eexists. reflexivity.
  - destruct (query_shape question w)
      as [[_ Q] | [_ (result & w2 & _ & L2 & _ & Q)]]; rewrite Q; cbn [snd].
    + exists []. now rewrite app_nil_r.
    + destruct (L (response_of question result (isoformat_now (clock w)))
                  (ticked w2)) as [suffix S].
      exists suffix. rewrite S. unfold log_text. cbn [log_file ticked].
      now rewrite L2.
Qed.

(** X20: every response of [query] echoes the question, is stamped
    with the reading of the clock, has a non-empty answer, and has at
    least one source when [found] is [True]. *)
Theorem query_response_is_well_formed question (w : World R) :
  exists response w',
    query question w = (Return response, w')
    /\ Response.question response = question
    /\ Response.timestamp response = isoformat_now (clock w)
    /\ Response.answer response <> []
    /\ (Response.found response = true -> Response.sources response <> []).
Proof.
  destruct (query_shape question w)
    as [[_ Q] | [_ (result & w2 & Q1 & _ & _ & Q)]]; rewrite Q;
    eexists _, _; (split; [reflexivity |]);
    (split; [reflexivity |]); (split; [reflexivity |]).
  - split; discriminate.
  - cbn [response_of Response.answer Response.found Response.sources].
    now apply (query_with_files_sound _ _ _ Q1).
Qed.

(** X21: the remote calls of one [query] are one listing, one lookup
    for every listed document, in the order of the listing, and one
    generation call when a document was kept; there is never a second
    generation call. *)
Theorem query_calls question (w : World R) :
  exists response w',
    query question w = (Return response, w')
    /\ calls w' =
         calls w ++ CallListFiles :: map CallGetFile (listed_names w)
         ++ match ready_files
                    (fst (lookups (listed_names w)
                                  (snd (genai_list_files (remote w))))) with
            | [] => []
            | f :: fs => [CallGenerate (context_prompt question) (f :: fs)]
            end.
Proof.
  destruct (query_shape question w)
    as [[N Q] | [_ (result & w2 & Q1 & _ & _ & Q)]]; rewrite Q;
    eexists _, _; (split; [reflexivity |]).
  - rewrite N. reflexivity.
  - rewrite _log_query_run. cbn [snd].
    assert (C : calls w2 =
                calls w ++ CallListFiles :: map CallGetFile (listed_names w)
                ++ match ready_files
                           (fst (lookups (listed_names w)
                                   (snd (genai_list_files (remote w))))) with
                   | [] => []
                   | f :: fs =>
                       [CallGenerate (context_prompt question) (f :: fs)]
                   end).
    { destruct (query_with_files_trace question (listed_names w)
                  (after_listing w)) as (r & v & Q2 & C & _).
      rewrite Q2 in Q1. injection Q1 as _ <-. rewrite C.
      unfold after_listing. cbn [calls remote called].
      now rewrite <- app_assoc. }
    destruct (log_fault (ticked w2) ModeAppend); exact C.
Qed.


(** The numbering of [formatted_sources]. *)
Lemma formatted_sources_run sources : forall idx,
  map Shown.index (formatted_sources idx sources)
  = seq idx (List.length sources)
  /\ map Shown.document (formatted_sources idx sources)
     = map (fun s => match Source.document s with
                     | Some d => d
                     | None => `"Unknown"
                     end) sources.
Proof.
  induction sources as [| s rest IH]; intros idx; [now split |].
  destruct (IH (S idx)) as [I D]. cbn. now rewrite I, D.
Qed.

(** X23: [format_response_for_display] shows the answer as it is,
    numbers the sources 1, 2, ... in their order with their document
    names, and sets [has_answer] to [False] only for an empty answer
    and for the answer [No response generated]. *)
Theorem formatted_response response :
  Display.message (format_response_for_display response)
    = Response.answer response
  /\ map Shown.index (Display.sources (format_response_for_display response))
     = seq 1 (List.length (Response.sources response))
  /\ map Shown.document
         (Display.sources (format_response_for_display response))
     = map (fun s => match Source.document s with
                     | Some d => d
                     | None => `"Unknown"
                     end) (Response.sources response)
  /\ (Display.has_answer (format_response_for_display response) = false
      <-> Response.answer response = []
          \/ Response.answer response = `"No response generated").
Proof.
  split; [reflexivity |].
  destruct (formatted_sources_run (Response.sources response) 1) as [I D].
  split; [exact I |]. split; [exact D |].
  cbn [format_response_for_display Display.has_answer].
  destruct (Response.answer response) as [| c a] eqn:E.
  - split; [now left | reflexivity].
  - rewrite negb_false_iff, eqb_eq. split.
    + now right.
    + intros [X | X]; [discriminate | exact X].
Qed.

End QueryMore.

(** ** The store manager *)

Section StoreMore.

Context {R : Type} {G : Genai R} {A : GenaiAdmin R} {H : Host}.

Lemma list_files_run (w : World R) :
  list_files w =
    (match fst (genai_list_files (remote w)) with
     | inr files => Return files
     | inl e => Raise (`"Failed to list files: " ++ e)
     end,
     called w (snd (genai_list_files (remote w))) [CallListFiles]).
Proof.
  unfold list_files, catch, remote_call.
  now destruct (genai_list_files (remote w)) as [[e | files] r1].
Qed.

(** The deletions of [delete_store] touch the remote service only. *)
Lemma delete_each_frame files : forall w : World R,
  calls (delete_each files w) = calls w
  /\ log_file (delete_each files w) = log_file w
  /\ console (delete_each files w) = console w.
Proof.
  induction files as [| f rest IH]; intros w; [now repeat split |].
  cbn [delete_each]. destruct (IH (snd (delete_file (name f) w)))
    as (C & L & K).
  rewrite C, L, K.
  unfold delete_file, catch, bind, unrecorded.
  destruct (genai_delete_file (name f) (remote w)) as [[e | []] r1];
    cbn; rewrite app_nil_r; now repeat split.
Qed.

(** X24: [create_store] on a manager without store, with a
    configuration file that can be written, succeeds: the manager then
    has a store of the given name, the file holds the configuration in
    memory, and every further [create_store] is refused with
    [Store already exists] and changes nothing. *)
Theorem created_store_is_kept store_name (st : Store) (w : World R) :
  store_exists st = false ->
  save_fault st = None ->
  exists result st' w',
    create_store store_name st w = (result, st', w')
    /\ Creation.success result = true
    /\ Creation.store_name result = Some store_name
    /\ Creation.created_at result = Some (isoformat_now (clock w))
    /\ store_exists st' = true
    /\ get_store_name st' = Some store_name
    /\ config_file st' = Some (config st')
    /\ forall other (v : World R),
         create_store other st' v =
           ({| Creation.success := false;
               Creation.message := `"Store already exists";
               Creation.store_name := Some store_name;
               Creation.created_at := None |}, st', v).
Proof.
  intros E S. unfold create_store, _save_config. rewrite E.
  cbn [with_config save_fault]. rewrite S.
  eexists _, _, _. split; [reflexivity |]. repeat split.
Qed.

(** X25: when the configuration file cannot be written, [create_store]
    returns [success = False] with the error under its two prefixes,
    and the file is left as it was; but the configuration in memory is
    already initialized, so the manager reports a store and refuses to
    create one again. *)
Theorem failed_creation_leaves_store store_name (st : Store) (w : World R) e :
  store_exists st = false ->
  save_fault st = Some e ->
  exists result st' w',
    create_store store_name st w = (result, st', w')
    /\ Creation.success result = false
    /\ Creation.message result =
         `"Failed to initialize store: " ++ `"Failed to save config: " ++ e
    /\ config_file st' = config_file st
    /\ store_exists st' = true
    /\ forall other (v : World R),
         Creation.message (fst (fst (create_store other st' v)))
         = `"Store already exists".
Proof.
  intros E S. unfold create_store, _save_config. rewrite E.
  cbn [with_config save_fault]. rewrite S.
  eexists _, _, _. split; [reflexivity |]. repeat split.
Qed.

(** X26: [delete_store] on a manager without store changes nothing.  On
    a manager with a store it resets the configuration in memory
    whatever the listing, the deletions and the writing of the file do;
    it returns [success = True] exactly when the file can be written,
    records one listing call and leaves the log alone; afterwards
    [create_store] is no longer refused. *)
Theorem delete_store_resets (st : Store) (w : World R) :
  (store_exists st = false ->
   delete_store st w =
     ({| Deletion.success := false;
         Deletion.message := `"No store to delete" |}, st, w))
  /\ (store_exists st = true ->
      exists result st' w',
        delete_store st w = (result, st', w')
        /\ config st' = default_config
        /\ store_exists st' = false
        /\ (Deletion.success result = true <-> save_fault st = None)
        /\ (forall e, save_fault st = Some e ->
              Deletion.message result =
                `"Failed to delete store: " ++ `"Failed to save config: " ++ e
              /\ config_file st' = config_file st)
        /\ (save_fault st = None -> config_file st' = Some default_config)
        /\ calls w' = calls w ++ [CallListFiles]
        /\ log_file w' = log_file w
        /\ forall store_name (v : World R),
             Creation.message (fst (fst (create_store store_name st' v)))
             <> `"Store already exists").
Proof.
  unfold store_exists. split; intros E; unfold delete_store; rewrite E;
    [reflexivity |].
  cbn [negb]. unfold _save_config. cbn [with_config save_fault config].
  assert (F : forall v : World R,
             v = match list_files w with
                 | (Return files, w') => delete_each files w'
                 | (_, w') => w'
                 end ->
             calls v = calls w ++ [CallListFiles] /\ log_file v = log_file w).
  { intros v ->. rewrite list_files_run.
    destruct (fst (genai_list_files (remote w))) as [e | files].
    - now split.
    - destruct (delete_each_frame files
                  (called w (snd (genai_list_files (remote w)))
                          [CallListFiles])) as (C & L & _).
      rewrite C, L. now split. }
  destruct (save_fault st) as [e |] eqn:S; eexists _, _, _;
    (split; [reflexivity |]); cbn [config config_file Deletion.success
      Deletion.message]; destruct (F _ eq_refl) as [C L];
    (split; [reflexivity |]); (split; [reflexivity |]).
  - split; [split; discriminate |].
    split; [intros x X; injection X as <-; now split |].
    split; [discriminate |]. split; [exact C |]. split; [exact L |].
    intros n v. unfold create_store, store_exists, _save_config. cbn.
    rewrite ?S. cbn. discriminate.
  - split; [now split |]. split; [discriminate |].
    split; [reflexivity |]. split; [exact C |]. split; [exact L |].
    intros n v. unfold create_store, store_exists, _save_config. cbn.
    rewrite ?S. cbn. discriminate.
Qed.

(** X27: for a manager with a store, the document count of
    [get_store_info] is the one [get_document_count] returns on the
    same world; when the listing fails it is 0 and the error is
    reported in the result, under the prefix of the client.  Without a
    store no remote call is made. *)
Theorem store_info_counts (st : Store) (w : World R) :
  (store_exists st = false ->
   get_store_info st w = (NoStore `"No store configured", w))
  /\ (store_exists st = true ->
      exists n error w',
        get_store_info st w =
          (StoreFound (Config.store_name (config st))
                      (Config.created_at (config st)) n error, w')
        /\ fst (get_document_count w) = Return n
        /\ calls w' = calls w ++ [CallListFiles]
        /\ match fst (genai_list_files (remote w)) with
           | inr files => n = List.length files /\ error = None
           | inl e => n = 0 /\ error = Some (`"Failed to list files: " ++ e)
           end).
Proof.
  split; intros E; unfold get_store_info; rewrite E; [reflexivity |].
  cbn [negb]. rewrite list_files_run, get_document_count_run.
  destruct (fst (genai_list_files (remote w))) as [e | files];
    eexists _, _, _; repeat split.
Qed.

End StoreMore.

(** * More concrete runs *)

Section MoreRuns.

Import Mock MockAdmin.
#[local] Existing Instance Slow.genai.

(** An upload that is PROCESSING for one poll and then ACTIVE. *)
Lemma upload_file_returns_settled_run :
  upload_file 3 `"/tmp/slow.pdf" (Some `"slow.pdf") None (Slow.world 1 `"ACTIVE")
    = (Return (Slow.handle_of {| Slow.pending := 0; Slow.final := `"ACTIVE" |}),
       snd (upload_file 3 `"/tmp/slow.pdf" (Some `"slow.pdf") None
                        (Slow.world 1 `"ACTIVE")))
  /\ exists s,
       state (Slow.handle_of {| Slow.pending := 0; Slow.final := `"ACTIVE" |})
         = Some s
       /\ Str.eqb s `"PROCESSING" = false
       /\ Str.eqb s `"FAILED" = false.
Proof.
  split; [vm_compute; reflexivity |].
  eapply (@upload_file_returns_settled _ Slow.genai Mock.host 3
            `"/tmp/slow.pdf" (Some `"slow.pdf") None (Slow.world 1 `"ACTIVE")).
  vm_compute. reflexivity.
Defined.

(** An upload that settles as FAILED. *)
Lemma upload_file_failures_run :
  upload_file 3 `"/tmp/slow.pdf" (Some `"slow.pdf") None (Slow.world 0 `"FAILED")
  = (Raise `"Failed to upload file: File processing failed: files/slow",
     called (Slow.world 0 `"FAILED")
            {| Slow.pending := 0; Slow.final := `"FAILED" |}
            [CallUploadFile `"/tmp/slow.pdf" (Some `"slow.pdf") None]).
Proof.
  exact (proj1 (proj2 (@upload_file_failures _ Slow.genai Mock.host 3
           `"/tmp/slow.pdf" (Some `"slow.pdf") None (Slow.world 0 `"FAILED")))
           _ _ eq_refl eq_refl).
Defined.

(** Two polls are made for an upload that is PROCESSING twice. *)
Lemma upload_file_calls_run :
  exists o w',
    upload_file 5 `"/tmp/slow.pdf" (Some `"slow.pdf") None
                (Slow.world 2 `"ACTIVE") = (o, w')
    /\ exists names,
         calls w' = calls (Slow.world 2 `"ACTIVE")
                    ++ CallUploadFile `"/tmp/slow.pdf" (Some `"slow.pdf") None
                       :: map CallGetFile names
         /\ List.length names <= 5
         /\ log_file w' = log_file (Slow.world 2 `"ACTIVE")
         /\ console w' = console (Slow.world 2 `"ACTIVE").
Proof.
  eexists _, _. split; [vm_compute; reflexivity |].
  eapply (@upload_file_calls _ Slow.genai Mock.host 5
            `"/tmp/slow.pdf" (Some `"slow.pdf") None (Slow.world 2 `"ACTIVE")).
  vm_compute. reflexivity.
Defined.


(** One Active document, one that is processing, one that is unknown. *)
Definition mixed : World Mock.service :=
  world [notes (Some `"ACTIVE"); handle `"files/b" `"plan.txt" (Some `"PROCESSING")]
        (inr paris) (Some header) no_fault.

Definition mixed_names : list str := [`"files/a"; `"files/b"; `"files/c"].

Lemma query_with_files_counts_run :
  exists result w',
    query_with_files `"What is X?" mixed_names mixed = (Return result, w')
    /\ Result.debug_info result
       = DebugFiles 3 1 [`"files/b (state: PROCESSING)";
                         `"files/c (error: 404 file not found)"]
    /\ 3 = List.length mixed_names
    /\ 1 + List.length [`"files/b (state: PROCESSING)";
                        `"files/c (error: 404 file not found)"] = 3
    /\ List.length (Result.sources result) = 1.
Proof.
  eexists _, _. split; [vm_compute; reflexivity |].
  split; [reflexivity |].
  eapply (@query_with_files_counts _ Mock.genai Mock.host `"What is X?"
            mixed_names mixed);
    vm_compute; reflexivity.
Defined.

Lemma query_with_files_answer_run :
  exists result,
    fst (query_with_files `"What is X?" mixed_names mixed) = Return result
    /\ Result.answer result <> []
    /\ (Result.found result = true -> Result.sources result <> []).
Proof.
  eexists. split; [vm_compute; reflexivity |].
  eapply (@query_with_files_answer _ Mock.genai Mock.host `"What is X?"
            mixed_names mixed).
  vm_compute. reflexivity.
Defined.

Lemma query_with_files_sources_run :
  exists result w',
    query_with_files `"What is X?" mixed_names mixed = (Return result, w')
    /\ calls w' = map CallGetFile mixed_names
                  ++ [CallGenerate (context_prompt `"What is X?")
                                   [notes (Some `"ACTIVE")]]
    /\ map Source.file_name (Result.sources result) = [Some `"files/a"]
    /\ map Source.document (Result.sources result) = [Some `"notes.txt"].
Proof.
  eexists _, _. split; [vm_compute; reflexivity |].
  edestruct (@query_with_files_sources _ Mock.genai Mock.host `"What is X?"
               mixed_names mixed) as (files & F & C & N & D & _);
    [vm_compute; reflexivity | discriminate |].
  vm_compute in F. subst files.
  split; [exact C |]. split; [exact N | exact D].
Defined.

(** The registry when the listing is down. *)
Lemma count_and_names_agree_run :
  let w := world_down [notes (Some `"ACTIVE")] (inr paris) None no_fault
                      `"503 unavailable" in
  fst (get_document_count w) = Return 0
  /\ fst (get_all_document_names w) = Return [].
Proof.
  cbv zeta.
  destruct (@count_and_names_agree _ Mock.genai
              (world_down [notes (Some `"ACTIVE")] (inr paris) None no_fault
                          `"503 unavailable"))
    as (n & names & w1 & w2 & C & N & _ & Z).
  destruct (Z `"503 unavailable" _ eq_refl) as [-> ->].
  rewrite C, N. split; reflexivity.
Defined.

(** An upload whose remote call is refused. *)
Definition refusing : World Slow.service := Slow.world 0 `"FAILED".

Lemma upload_document_failures_run :
  exists result w',
    upload_document 3 (FilePath `"/home/me/big.pdf") None refusing
      = (Return result, w')
    /\ Upload.success result = false
    /\ Upload.document_name result = None
    /\ (Upload.duplicate result = None
        /\ exists e, Upload.message result = `"Failed to upload document: " ++ e).
Proof.
  eexists _, _. split; [vm_compute; reflexivity |].
  split; [reflexivity |].
  edestruct (@upload_document_failures _ Slow.genai Mock.host 3
               (FilePath `"/home/me/big.pdf") None refusing)
    as [_ F]; [vm_compute; reflexivity |].
  destruct (F _ eq_refl eq_refl) as [D [X | X]];
    [discriminate X | split; [exact D | exact X]].
Defined.

Lemma upload_success_means_uploaded_run :
  let w := active (inr paris) (Some header) no_fault in
  exists result w',
    upload_document 3 (Streamlit `"plan.txt" [] (Some `"text/plain")) None w
      = (Return result, w')
    /\ Upload.success result = true
    /\ exists f tmp_path mime_type names,
         result = uploaded_result `"plan.txt" f
         /\ settled f
         /\ stage (Streamlit `"plan.txt" [] (Some `"text/plain"))
            = inr (tmp_path, mime_type)
         /\ calls w' =
              calls w ++
              CallListFiles
              :: CallUploadFile tmp_path (Some `"plan.txt") mime_type
              :: map CallGetFile names
         /\ List.length names <= 3.
Proof.
  cbv zeta. eexists _, _. split; [vm_compute; reflexivity |].
  split; [reflexivity |].
  eapply (@upload_success_means_uploaded _ Mock.genai Mock.host 3
            (Streamlit `"plan.txt" [] (Some `"text/plain")) None
            (active (inr paris) (Some header) no_fault));
    vm_compute; reflexivity.
Defined.

(** The upload is stored, the temporary file stays, the result says
    failure. *)
Lemma cleanup_failure_hides_upload_run :
  let w := active (inr paris) (Some header) no_fault in
  exists w',
    @upload_document _ Mock.genai sticky_host 3
      (Streamlit `"plan.txt" [] (Some `"text/plain")) None w
    = (Return {| Upload.success := false;
                 Upload.message :=
                   `"Failed to upload document: " ++ `"file is in use";
                 Upload.document_name := None;
                 Upload.duplicate := None;
                 Upload.display_name := None |}, w')
    /\ List.length (stored (remote w')) = 2.
Proof.
  cbv zeta. eexists. split.
  - eapply (@cleanup_failure_hides_upload _ Mock.genai sticky_host 3
              (Streamlit `"plan.txt" [] (Some `"text/plain")) None
              (active (inr paris) (Some header) no_fault));
      try (vm_compute; reflexivity).
    vm_compute. intros [X | []]. discriminate X.
  - reflexivity.
Defined.

(** A batch of a duplicate and a new file. *)
Lemma batch_upload_counts_run :
  let w := active (inr paris) (Some header) no_fault in
  let batch := [FilePath `"/home/me/notes.txt"; FilePath `"/home/me/plan.txt"] in
  exists r w',
    batch_upload_documents 3 batch w = (Return r, w')
    /\ Batch.total r = 2
    /\ Batch.successful r + Batch.failed r = Batch.total r
    /\ Batch.successful r
       = List.length (filter Detail.success (Batch.details r))
    /\ map Detail.file (Batch.details r) = [`"notes.txt"; `"plan.txt"]
    /\ map Detail.success (Batch.details r) = [false; true].
Proof.
  cbv zeta. eexists _, _. split; [vm_compute; reflexivity |].
  edestruct (@batch_upload_counts _ Mock.genai Mock.host 3
               [FilePath `"/home/me/notes.txt"; FilePath `"/home/me/plan.txt"]
               (active (inr paris) (Some header) no_fault))
    as [_ B]; [vm_compute; reflexivity |].
  destruct (B _ eq_refl) as (T & C & S & D).
  split; [exact T |]. split; [exact C |]. split; [exact S |].
  split; [exact D | reflexivity].
Defined.


Lemma cleared_log_is_header_run :
  let w := snd (_log_query plain_response
                  (active (inr paris) (Some header) no_fault)) in
  fst (clear_history w) = Return true
  /\ fst (get_query_history (snd (clear_history w)))
     = Return (`"# FileRAG Query History" ++ nl
               ++ `"# Cleared: " ++ `"2025-01-01T00:00:10" ++ nl
               ++ bar 61%N ++ nl ++ nl)
  /\ (mentions `"2025-01-01T00:00:10" = false ->
      fst (get_query_count (snd (clear_history w))) = Return 0).
Proof.
  cbv zeta.
  exact (@cleared_log_is_header _ Mock.host
           (snd (_log_query plain_response
                   (active (inr paris) (Some header) no_fault)))
           eq_refl eq_refl).
Defined.


Lemma created_store_is_kept_run :
  let w := active (inr paris) None no_fault in
  exists result st' w',
    create_store `"docs1" fresh_store w = (result, st', w')
    /\ Creation.success result = true
    /\ store_exists st' = true
    /\ get_store_name st' = Some `"docs1"
    /\ config_file st' = Some (config st')
    /\ Creation.message (fst (fst (create_store `"docs2" st' w')))
       = `"Store already exists".
Proof.
  cbv zeta.
  destruct (@created_store_is_kept _ Mock.host `"docs1" fresh_store
              (active (inr paris) None no_fault) eq_refl eq_refl)
    as (result & st' & w' & E & S & _ & _ & X & N & F & Again).
  exists result, st', w'. rewrite (Again `"docs2" w').
  repeat split; assumption.
Defined.

Lemma failed_creation_leaves_store_run :
  let w := active (inr paris) None no_fault in
  exists result st' w',
    create_store `"docs1" locked_store w = (result, st', w')
    /\ Creation.success result = false
    /\ Creation.message result =
         `"Failed to initialize store: Failed to save config: Permission denied"
    /\ config_file st' = None
    /\ store_exists st' = true.
Proof.
  cbv zeta.
  destruct (@failed_creation_leaves_store _ Mock.host `"docs1" locked_store
              (active (inr paris) None no_fault) `"Permission denied"
              eq_refl eq_refl)
    as (result & st' & w' & E & S & M & F & X & _).
  exists result, st', w'. repeat split; assumption.
Defined.

(** A store with two documents is deleted. *)
Definition stocked : Store :=
  {| config := {| Config.store_initialized := true;
                  Config.store_name := Some `"docs1";
                  Config.created_at := Some `"2025-01-01T00:00:10" |};
     config_file := None; save_fault := None |}.

Lemma delete_store_resets_run :
  let w := world two_files (inr paris) None no_fault in
  exists result st' w',
    delete_store stocked w = (result, st', w')
    /\ Deletion.success result = true
    /\ store_exists st' = false
    /\ config_file st' = Some default_config
    /\ calls w' = [CallListFiles]
    /\ stored (remote w') = [].
Proof.
  cbv zeta.
  destruct (proj2 (@delete_store_resets _ Mock.genai MockAdmin.admin Mock.host
                     stocked
                     (world two_files (inr paris) None no_fault)) eq_refl)
    as (result & st' & w' & E & _ & X & S & _ & F & C & _).
  exists result, st', w'. split; [exact E |].
  split; [now apply S |]. split; [exact X |]. split; [now apply F |].
  split; [exact C |].
  assert (W : w' = snd (delete_store stocked
                          (world two_files (inr paris) None no_fault)))
    by (now rewrite E).
  rewrite W. vm_compute. reflexivity.
Defined.

Lemma store_info_counts_run :
  let w := world two_files (inr paris) None no_fault in
  fst (get_store_info fresh_store w) = NoStore `"No store configured"
  /\ exists n error w',
       get_store_info stocked w =
         (StoreFound (Some `"docs1") (Some `"2025-01-01T00:00:10") n error, w')
       /\ fst (get_document_count w) = Return n
       /\ n = 2.
Proof.
  cbv zeta.
  destruct (@store_info_counts _ Mock.genai stocked
              (world two_files (inr paris) None no_fault)) as [_ I].
  destruct (@store_info_counts _ Mock.genai fresh_store
              (world two_files (inr paris) None no_fault)) as [N _].
  split; [now rewrite N |].
  destruct (I eq_refl) as (n & error & w' & E & C & _ & [L _]).
  exists n, error, w'. split; [exact E |]. split; [exact C | exact L].
Defined.

(** A stored document is deleted; a second deletion fails. *)
Lemma delete_document_result_run :
  let w := active (inr paris) None no_fault in
  exists result w',
    delete_document `"files/a" w = (Return result, w')
    /\ Deletion.success result = true
    /\ stored (remote w') = []
    /\ fst (delete_document `"files/a" w')
       = Return {| Deletion.success := false;
                   Deletion.message :=
                     `"Failed to delete document: Failed to delete file: 404 file not found" |}.
Proof.
  cbv zeta.
  destruct (@delete_document_result _ MockAdmin.admin `"files/a"
              (active (inr paris) None no_fault))
    as (result & w' & E & Rm & _ & _ & X).
  exists result, w'. split; [exact E |].
  cbn in X. subst result. split; [reflexivity |].
  split; [rewrite Rm; reflexivity |].
  destruct (@delete_document_result _ MockAdmin.admin `"files/a" w')
    as (again & w'' & E2 & _ & _ & _ & Y).
  rewrite Rm in Y. cbn in Y. rewrite E2, Y. reflexivity.
Defined.



End MoreRuns.
